(** * NDR-Validation: the extractor and the rule battery of [app.py]

    A shallow embedding of [extract_services_with_dates] and [validate_ndr]
    and the properties of the two-stage pipeline.

    Conventions.
    - A Python [str] is a [string] of bytes (its UTF-8 encoding).  The
      library functions [str.upper], [int] and [datetime.strptime] read
      text of every script; they are parameters of the program (class
      [Lib.Library]), known on plain ASCII text, where module [Py]
      transcribes them from CPython.
    - [ET.parse] is given what it makes of the file ([ET.xml_file]): the
      exception it raises, or the tree of the document.
    - [None] is [None]; a value that may be [None] is an [option].
    - Statements that mutate ([issues.append], [services[...] = ...]) and
      statements that may raise are written in the monad [M], whose state
      survives an exception, as Python's does.
    - A [dict] iterated in insertion order is an association list with
      unique keys ([pydict]); the three-key [patient] dict, whose keys may
      be missing, is a [gmap]; the [set] of IPT dates is a [gset]. *)

From Stdlib Require Import ZArith Ascii String List Lia Bool.
From stdpp Require Import gmap strings list pretty.
From Stdlib Require Import Sorted.

Local Open Scope Z_scope.

Set Warnings "-clear-no-such-hyp".

(* ===================================================================== *)
(** ** Python strings *)
(* ===================================================================== *)

Module Py.

(** Truth value of [None | str]: [None] and [''] are false. *)
Definition truthy (o : option string) : bool :=
  match o with
  | Some (String _ _) => true
  | _ => false
  end.

(** [o or d] for [o : None | str]. *)
Definition or_else (o : option string) (d : string) : string :=
  match o with
  | Some (String c s) => String c s
  | _ => d
  end.

(** [ord(c)]. *)
Definition ord (c : ascii) : N := N_of_ascii c.

Definition upper_char (c : ascii) : ascii :=
  if (97 <=? ord c)%N && (ord c <=? 122)%N
  then ascii_of_N (ord c - 32) else c.

(** [s.upper()], for ASCII text. *)
Fixpoint upper (s : string) : string :=
  match s with
  | EmptyString => EmptyString
  | String c s' => String (upper_char c) (upper s')
  end.

(** [sub in s]. *)
Fixpoint contains (sub s : string) : bool :=
  String.prefix sub s ||
  match s with
  | EmptyString => false
  | String _ s' => contains sub s'
  end.

(** ** Exceptions *)

Inductive exn := ParseError | ValueError | TypeError | LookupError | OSError.

Definition result (A : Type) : Type := exn + A.

(** ** [int(str)] *)

Definition is_space (c : ascii) : bool :=
  let n := ord c in
  ((9 <=? n)%N && (n <=? 13)%N) || (n =? 32)%N.

Definition digit (c : ascii) : option Z :=
  let n := ord c in
  if (48 <=? n)%N && (n <=? 57)%N then Some (Z.of_N (n - 48)) else None.

Fixpoint lstrip (s : string) : string :=
  match s with
  | String c s' => if is_space c then lstrip s' else s
  | EmptyString => EmptyString
  end.

Fixpoint all_space (s : string) : bool :=
  match s with
  | String c s' => is_space c && all_space s'
  | EmptyString => true
  end.

(** The digit scan of [PyLong_FromString]: digits with single underscores
    between them.  Returns the value, the number of digits and what
    follows; [None] on a doubled or trailing underscore. [us] says that
    the previous character was an underscore. *)
Fixpoint scan_digits (s : string) (us : bool) (acc : Z) (n : nat)
  : option (Z * nat * string) :=
  match s with
  | String c s' =>
      if Ascii.eqb c "_" then
        if us then None else scan_digits s' true acc n
      else
        match digit c with
        | Some d => scan_digits s' false (10 * acc + d) (S n)
        | None => if us then None else Some (acc, n, s)
        end
  | EmptyString => if us then None else Some (acc, n, EmptyString)
  end.

(** [sys.int_info.default_max_str_digits]. *)
Definition int_max_str_digits : nat := 4300.

Definition int_unsigned (s : string) : option Z :=
  match s with
  | String "_" _ => None
  | _ =>
      match scan_digits s false 0 0 with
      | Some (v, n, rest) =>
          if (n =? 0)%nat then None
          else if (int_max_str_digits <? n)%nat then None
          else if all_space rest then Some v else None
      | None => None
      end
  end.

(** [int(s)] for an ASCII [str]: surrounding whitespace, an optional sign,
    decimal digits. *)
Definition int_str (s : string) : option Z :=
  match lstrip s with
  | String "+" s' => int_unsigned s'
  | String "-" s' => Z.opp <$> int_unsigned s'
  | s' => int_unsigned s'
  end.

(** ** [datetime] *)

(** A [datetime] read with the format [%Y-%m-%d]: the time of day is
    midnight throughout, so the three date fields are all there is. *)
Record datetime := mk_datetime { year : Z; month : Z; day : Z }.

Definition is_leap (y : Z) : bool :=
  (y mod 4 =? 0) && (negb (y mod 100 =? 0) || (y mod 400 =? 0)).

Definition days_in_month (y m : Z) : Z :=
  if m =? 2 then (if is_leap y then 29 else 28)
  else if (m =? 4) || (m =? 6) || (m =? 9) || (m =? 11) then 30
  else 31.

(** The constructor's range check ([MINYEAR = 1], [MAXYEAR = 9999]). *)
Definition valid_date (y m d : Z) : bool :=
  (1 <=? y) && (y <=? 9999) && (1 <=? m) && (m <=? 12) &&
  (1 <=? d) && (d <=? days_in_month y m).

(** [a < b] on tuples of two integers. *)
Definition pair_lt (a b : Z * Z) : bool :=
  (fst a <? fst b) || ((fst a =? fst b) && (snd a <? snd b)).

(** [a < b] on datetimes. *)
Definition dt_lt (a b : datetime) : bool :=
  (year a <? year b) ||
  ((year a =? year b) && pair_lt (month a, day a) (month b, day b)).

(** The alternatives of [_strptime]'s regular expression for [%m],
    [1[0-2]|0[1-9]|[1-9]], that match at the start of [s], in the order
    the regex engine tries them, each with what follows it. *)
Definition re_month (s : string) : list (Z * string) :=
  (match s with
   | String "1" (String c r) =>
       match digit c with
       | Some d => if d <=? 2 then [(10 + d, r)] else []
       | None => []
       end
   | _ => []
   end) ++
  (match s with
   | String "0" (String c r) =>
       match digit c with
       | Some d => if 1 <=? d then [(d, r)] else []
       | None => []
       end
   | _ => []
   end) ++
  (match s with
   | String c r =>
       match digit c with
       | Some d => if 1 <=? d then [(d, r)] else []
       | None => []
       end
   | _ => []
   end).

(** The same for [%d], [3[0-1]|[1-2]\d|0[1-9]|[1-9]| [1-9]]. *)
Definition re_day (s : string) : list (Z * string) :=
  (match s with
   | String "3" (String c r) =>
       match digit c with
       | Some d => if d <=? 1 then [(30 + d, r)] else []
       | None => []
       end
   | _ => []
   end) ++
  (match s with
   | String c1 (String c2 r) =>
       match digit c1, digit c2 with
       | Some d1, Some d2 =>
           if (1 <=? d1) && (d1 <=? 2) then [(10 * d1 + d2, r)] else []
       | _, _ => []
       end
   | _ => []
   end) ++
  (match s with
   | String "0" (String c r) =>
       match digit c with
       | Some d => if 1 <=? d then [(d, r)] else []
       | None => []
       end
   | _ => []
   end) ++
  (match s with
   | String c r =>
       match digit c with
       | Some d => if 1 <=? d then [(d, r)] else []
       | None => []
       end
   | _ => []
   end) ++
  (match s with
   | String " " (String c r) =>
       match digit c with
       | Some d => if 1 <=? d then [(d, r)] else []
       | None => []
       end
   | _ => []
   end).

(** [\d\d\d\d]. *)
Definition re_year (s : string) : option (Z * string) :=
  match s with
  | String c1 (String c2 (String c3 (String c4 r))) =>
      match digit c1, digit c2, digit c3, digit c4 with
      | Some d1, Some d2, Some d3, Some d4 =>
          Some (1000 * d1 + 100 * d2 + 10 * d3 + d4, r)
      | _, _, _, _ => None
      end
  | _ => None
  end.

Definition expect_dash (s : string) : option string :=
  match s with
  | String "-" r => Some r
  | _ => None
  end.

(** The first way the month alternatives can be continued by [-] and a
    day: what backtracking finds. *)
Fixpoint re_month_day (alts : list (Z * string)) : option (Z * Z * string) :=
  match alts with
  | [] => None
  | (m, r) :: alts' =>
      match expect_dash r with
      | Some r' =>
          match re_day r' with
          | (d, r'') :: _ => Some (m, d, r'')
          | [] => re_month_day alts'
          end
      | None => re_month_day alts'
      end
  end.

(** [format_regex.match(data_string)] for the format [%Y-%m-%d]: the
    fields and the unconverted rest. *)
Definition re_match (s : string) : option (Z * Z * Z * string) :=
  match re_year s with
  | Some (y, r) =>
      match expect_dash r with
      | Some r' =>
          match re_month_day (re_month r') with
          | Some (m, d, rest) => Some (y, m, d, rest)
          | None => None
          end
      | None => None
      end
  | None => None
  end.

(** [datetime.strptime(s, "%Y-%m-%d")] for an ASCII [str]. *)
Definition strptime_str (s : string) : option datetime :=
  match re_match s with
  | Some (y, m, d, EmptyString) =>
      if valid_date y m d then Some (mk_datetime y m d) else None
  | _ => None
  end.

Definition digit_char (d : Z) : ascii := ascii_of_N (48 + Z.to_N d).

(** ['%02d' % n], for [0 <= n < 100]. *)
Definition zfill2 (n : Z) : string :=
  String (digit_char (n / 10)) (String (digit_char (n mod 10)) "").

(** ['%04d' % n], for [0 <= n < 10000]. *)
Definition zfill4 (n : Z) : string :=
  String (digit_char (n / 1000))
    (String (digit_char (n / 100 mod 10)) (zfill2 (n mod 100))).

(** The text [YYYY-MM-DD] of a date. *)
Definition iso_date (y m d : Z) : string :=
  zfill4 y +:+ "-" +:+ zfill2 m +:+ "-" +:+ zfill2 d.

(** [str(dt.date())]: ISO format, [%04d-%02d-%02d]; the fields of a
    [datetime] are within the ranges of [valid_date]. *)
Definition date_str (dt : datetime) : string :=
  iso_date (year dt) (month dt) (day dt).

(** [str(z)] for an [int]. *)
Definition str_of_int (z : Z) : string := pretty z.

(** [str(x)] for [x : None | str], as an f-string field renders it. *)
Definition str_of (x : option string) : string :=
  match x with
  | Some s => s
  | None => "None"
  end.

End Py.

(* ===================================================================== *)
(** ** The library beyond ASCII *)
(* ===================================================================== *)

(** The ASCII text a well-formed XML 1.0 document can hold: the printable
    characters, tab, line feed and carriage return. *)
Definition plain_char (c : ascii) : bool :=
  let n := Py.ord c in
  ((32 <=? n)%N && (n <=? 126)%N) || (n =? 9)%N || (n =? 10)%N || (n =? 13)%N.

Fixpoint plain (s : string) : bool :=
  match s with
  | EmptyString => true
  | String c s' => plain_char c && plain s'
  end.

Module Lib.

(** CPython's [int], [datetime.strptime] with the format [%Y-%m-%d] and
    [str.upper], on any text.  Beyond ASCII they follow the Unicode
    character database (the decimal digits and blanks of every script, case
    mappings such as U+0131 to [I]), which is no part of this program: they
    are parameters.  What is known of them is what they do on plain ASCII
    text, where module [Py] transcribes them, and that [strptime] returns
    dates of the calendar only. *)
Class Library := {
  int_str : string → option Z;
  strptime_str : string → option Py.datetime;
  upper : string → string;
  int_str_plain : ∀ s, plain s = true → int_str s = Py.int_str s;
  strptime_str_plain :
    ∀ s, plain s = true → strptime_str s = Py.strptime_str s;
  upper_plain : ∀ s, plain s = true → upper s = Py.upper s;
  strptime_str_valid :
    ∀ s d, strptime_str s = Some d →
           Py.valid_date (Py.year d) (Py.month d) (Py.day d) = true
}.

(** [int(x)] for [x : None | str]: [TypeError] on [None], [ValueError] on a
    string that is not an integer literal. *)
Definition int `{Library} (x : option string) : Py.result Z :=
  match x with
  | None => inl Py.TypeError
  | Some s =>
      match int_str s with
      | Some z => inr z
      | None => inl Py.ValueError
      end
  end.

(** [datetime.strptime(x, "%Y-%m-%d")] for [x : None | str]. *)
Definition strptime `{Library} (x : option string) : Py.result Py.datetime :=
  match x with
  | None => inl Py.TypeError
  | Some s =>
      match strptime_str s with
      | Some d => inr d
      | None => inl Py.ValueError
      end
  end.

End Lib.

(** [str.lower] and [str.endswith].  Only the ASCII capitals are mapped:
    no other character has ".", "x", "m" or "l" in its lower case, so the
    test of the extension decides as Python's does on every name. *)
Module PyStr.

Definition lower_char (c : ascii) : ascii :=
  if (65 <=? Py.ord c)%N && (Py.ord c <=? 90)%N
  then ascii_of_N (Py.ord c + 32) else c.

(** [s.lower()]. *)
Fixpoint lower (s : string) : string :=
  match s with
  | EmptyString => EmptyString
  | String c s' => String (lower_char c) (lower s')
  end.

(** [s.endswith(suffix)]: some tail of [s] is [suffix]. *)
Fixpoint endswith (s suffix : string) : bool :=
  String.eqb s suffix ||
  match s with
  | EmptyString => false
  | String _ s' => endswith s' suffix
  end.

End PyStr.

(* ===================================================================== *)
(** ** [xml.etree.ElementTree] *)
(* ===================================================================== *)

Module ET.

(** An element: its tag, its text (the character data before the first
    child, [None] when there is none) and its children in document order.
    The parser keeps neither comments nor processing instructions, and
    attributes and tails are not read by this program. *)
#[warnings="-register-all"]
Inductive Element :=
  Elem (tag : string) (text : option string) (children : list Element).

Definition tag (e : Element) : string :=
  match e with Elem t _ _ => t end.
Definition text (e : Element) : option string :=
  match e with Elem _ x _ => x end.
Definition children (e : Element) : list Element :=
  match e with Elem _ _ cs => cs end.

(** [e.iter()]: the element and all its descendants, in document order. *)
Fixpoint iter (e : Element) : list Element :=
  match e with
  | Elem _ _ cs =>
      e :: (fix iter_all (l : list Element) : list Element :=
              match l with
              | [] => []
              | c :: l' => iter c ++ iter_all l'
              end) cs
  end.

(** [root.findall('.//' + t)]: the descendants of [root] with tag [t], in
    document order; the root itself is not among them. *)
Definition findall (root : Element) (t : string) : list Element :=
  filter (λ e, tag e = t) (tail (iter root)).

(** [root.find('.//' + t)]: the first of them, or [None]. *)
Definition find (root : Element) (t : string) : option Element :=
  head (findall root t).

(** The children of [e] with tag [t]. *)
Definition children_named (t : string) (e : Element) : list Element :=
  filter (λ c, tag c = t) (children e).

(** The elements a path [t1/t2/...] selects from the context [ctx]. *)
Definition select (path : list string) (ctx : list Element) : list Element :=
  fold_left (λ ctx t, ctx ≫= children_named t) path ctx.

(** [e.findtext(path)]: the text of the first element the path selects
    (the empty string when it has no text), [None] when it selects none. *)
Definition findtext (e : Element) (path : list string) : option string :=
  match head (select path [e]) with
  | Some c => Some (default "" (text c))
  | None => None
  end.

(** What [ET.parse] is given: a file it refuses, or the document of a
    well-formed one.  It refuses a file it cannot open or read with
    [OSError], a document that is not well formed with [ParseError], one
    that declares an encoding Python has no codec for with [LookupError],
    and one that declares a multi-byte encoding with [ValueError]. *)
Inductive xml_file :=
  | Unreadable
  | NotWellFormed
  | UnknownEncoding
  | MultiByteEncoding
  | Document (root : Element).

(** [ET.parse(xml_file).getroot()]. *)
Definition parse (f : xml_file) : Py.result Element :=
  match f with
  | Unreadable => inl Py.OSError
  | NotWellFormed => inl Py.ParseError
  | UnknownEncoding => inl Py.LookupError
  | MultiByteEncoding => inl Py.ValueError
  | Document root => inr root
  end.

End ET.

(* ===================================================================== *)
(** ** Python dictionaries in insertion order *)
(* ===================================================================== *)

Definition pydict (V : Type) : Type := list (string * V).

(** [d[k] = v]: a key already there keeps its place and takes the new
    value; a new key goes to the end. *)
Fixpoint dict_set {V} (k : string) (v : V) (d : pydict V) : pydict V :=
  match d with
  | [] => [(k, v)]
  | (k', v') :: d' =>
      if String.eqb k' k then (k, v) :: d' else (k', v') :: dict_set k v d'
  end.

(** [d.get(k)]. *)
Fixpoint dict_get {V} (k : string) (d : pydict V) : option V :=
  match d with
  | [] => None
  | (k', v') :: d' => if String.eqb k' k then Some v' else dict_get k d'
  end.

Definition items {V} (d : pydict V) : list (string * V) := d.
Definition keys {V} (d : pydict V) : list string := map fst d.

(* ===================================================================== *)
(** ** The normalized record *)
(* ===================================================================== *)

(** [{'arv': ..., 'tb': ...}] *)
Record encounter := mk_encounter {
  arv : option string;
  tb : option string
}.

(** [{'code': ..., 'type': ..., 'mmd': ..., 'dsd': ..., 'duration': ...}] *)
Record regimen := mk_regimen {
  code : string;
  type : option string;
  mmd : option string;
  dsd : option string;
  duration : option string
}.

(** [{'test_id': ..., 'collected': ...}] *)
Record lab := mk_lab {
  test_id : option string;
  collected : option string
}.

Record services := mk_services {
  encounters : pydict encounter;
  regimens : pydict regimen;
  labs : pydict lab;
  patient : gmap string (option string);
  art_start : option Py.datetime;
  ipt_codes : gset string
}.

(** [d.get(k)] on the [patient] dict: [None] for a missing key. *)
Definition patient_get (k : string) (s : services) : option string :=
  default None (patient s !! k).

(* ===================================================================== *)
(** ** Statements: state and exceptions *)
(* ===================================================================== *)

(** The variables the two functions assign and mutate: [services] in
    [extract_services_with_dates], [issues] in [validate_ndr]. *)
Record store := mk_store {
  v_services : services;
  v_issues : list string
}.

(** A statement or expression: from a store, a value or a raised
    exception, and the store it leaves. *)
Definition M (A : Type) : Type := store → Py.result A * store.

Definition ret {A} (a : A) : M A := λ st, (inr a, st).

Definition bind {A B} (f : A → M B) (m : M A) : M B :=
  λ st, match m st with
        | (inr a, st') => f a st'
        | (inl e, st') => (inl e, st')
        end.

#[global] Instance M_ret : MRet M := @ret.
#[global] Instance M_bind : MBind M := @bind.

(** An expression that may raise and touches no variable. *)
Definition eval {A} (r : Py.result A) : M A := λ st, (r, st).

(** [pass]. *)
Definition pass : M unit := ret ().

(** [try: body  except: handler] (a bare [except] catches everything). *)
Definition try_except (body handler : M unit) : M unit :=
  λ st, match body st with
        | (inl _, st') => handler st'
        | r => r
        end.

(** [for x in l: body]. *)
Fixpoint for_ {X} (l : list X) (body : X → M unit) : M unit :=
  match l with
  | [] => pass
  | x :: l' => body x ;; for_ l' body
  end.

(** [if c: body]. *)
Definition when (c : bool) (body : M unit) : M unit :=
  if c then body else pass.

Definition modify_services (f : services → services) : M unit :=
  λ st, (inr (), mk_store (f (v_services st)) (v_issues st)).

Definition get_services : M services := λ st, (inr (v_services st), st).

Definition set_issues (l : list string) : M unit :=
  λ st, (inr (), mk_store (v_services st) l).

Definition get_issues : M (list string) := λ st, (inr (v_issues st), st).

(** [issues.append(msg)]. *)
Definition append (msg : string) : M unit :=
  λ st, (inr (), mk_store (v_services st) (v_issues st ++ [msg])).

(** What a call returns, from a given store. *)
Definition call {A} (m : M A) (st : store) : Py.result A := fst (m st).

(** The call returns [a], whatever the variables held before. *)
Definition returns {A} (m : M A) (a : A) : Prop :=
  ∀ st, call m st = inr a.

(** The call raises [e], whatever the variables held before. *)
Definition raises {A} (m : M A) (e : Py.exn) : Prop :=
  ∀ st, call m st = inl e.

(** The library that reads every string as ASCII text: the functions of
    module [Py].  It meets the interface, and serves to run the worked
    documents below, whose text is all plain. *)
Definition ascii_library : Lib.Library.
Proof.
  refine {| Lib.int_str := Py.int_str;
            Lib.strptime_str := Py.strptime_str;
            Lib.upper := Py.upper |}.
  - reflexivity.
  - reflexivity.
  - reflexivity.
  - intros text dt. unfold Py.strptime_str.
    destruct (Py.re_match text) as [[[[y m] d] [|c r]]|];
      try discriminate.
    destruct (Py.valid_date y m d) eqn:Hv; [|discriminate].
    intros [= <-]. exact Hv.
Defined.

Section Program.

Context {lib : Lib.Library}.

(* ===================================================================== *)
(** ** [extract_services_with_dates] (app.py, lines 46-101) *)
(* ===================================================================== *)

(** Lines 50-57. *)
Definition empty_services : services :=
  {| encounters := []; regimens := []; labs := []; patient := ∅;
     art_start := None; ipt_codes := ∅ |}.

(** [services['patient'][k] = v] *)
Definition set_patient (k : string) (v : option string) (s : services)
  : services :=
  {| encounters := encounters s; regimens := regimens s; labs := labs s;
     patient := <[k := v]> (patient s);
     art_start := art_start s; ipt_codes := ipt_codes s |}.

(** [services['art_start'] = d] *)
Definition set_art_start (d : Py.datetime) (s : services) : services :=
  {| encounters := encounters s; regimens := regimens s; labs := labs s;
     patient := patient s; art_start := Some d; ipt_codes := ipt_codes s |}.

(** [services['regimens'][date] = r] *)
Definition set_regimen (date : string) (r : regimen) (s : services)
  : services :=
  {| encounters := encounters s; regimens := dict_set date r (regimens s);
     labs := labs s; patient := patient s; art_start := art_start s;
     ipt_codes := ipt_codes s |}.

(** [services['ipt_codes'].add(date)] *)
Definition add_ipt (date : string) (s : services) : services :=
  {| encounters := encounters s; regimens := regimens s; labs := labs s;
     patient := patient s; art_start := art_start s;
     ipt_codes := {[date]} ∪ ipt_codes s |}.

(** [services['encounters'][date] = e] *)
Definition set_encounter (date : string) (e : encounter) (s : services)
  : services :=
  {| encounters := dict_set date e (encounters s); regimens := regimens s;
     labs := labs s; patient := patient s; art_start := art_start s;
     ipt_codes := ipt_codes s |}.

(** [services['labs'][date] = l] *)
Definition set_lab (date : string) (l : lab) (s : services) : services :=
  {| encounters := encounters s; regimens := regimens s;
     labs := dict_set date l (labs s); patient := patient s;
     art_start := art_start s; ipt_codes := ipt_codes s |}.

(** [e.findtext('VisitDate') or 'Unknown'] *)
Definition visit_date (e : ET.Element) : string :=
  Py.or_else (ET.findtext e ["VisitDate"]) "Unknown".

(** The entry a [Regimen] node is stored as (lines 79-84). *)
Definition regimen_of (reg : ET.Element) : regimen :=
  {| code := Py.or_else (ET.findtext reg ["PrescribedRegimen"; "Code"]) "";
     type := ET.findtext reg ["PrescribedRegimenTypeCode"];
     mmd := ET.findtext reg ["MultiMonthDispensing"];
     dsd := ET.findtext reg ["DifferentiatedServiceDelivery"];
     duration := ET.findtext reg ["PrescribedRegimenDuration"] |}.

(** The entry an [HIVEncounter] node is stored as (lines 90-92). *)
Definition encounter_of (e : ET.Element) : encounter :=
  {| arv := ET.findtext e ["ARVDrugRegimen"; "Code"];
     tb := ET.findtext e ["TBStatus"] |}.

(** The entry a [LaboratoryReport] node is stored as (lines 96-99). *)
Definition lab_of (l : ET.Element) : lab :=
  {| test_id := ET.findtext l ["LaboratoryTestIdentifier"];
     collected := ET.findtext l ["CollectionDate"] |}.

(** Lines 59-61. *)
Definition extract_demographics (root : ET.Element) : M unit :=
  match ET.find root "PatientDemographics" with
  | Some patient =>
      modify_services
        (set_patient "dob" (ET.findtext patient ["PatientDateOfBirth"]))
  | None => pass
  end.

(** Lines 63-66. *)
Definition extract_common (root : ET.Element) : M unit :=
  match ET.find root "CommonQuestions" with
  | Some common =>
      modify_services
        (set_patient "age" (ET.findtext common ["PatientAge"])) ;;
      modify_services
        (set_patient "report_date" (ET.findtext common ["DateOfLastReport"]))
  | None => pass
  end.

(** Lines 68-75. *)
Definition extract_art_start (root : ET.Element) : M unit :=
  match ET.find root "HIVQuestions" with
  | Some hiv_q =>
      let art_date := ET.findtext hiv_q ["ARTStartDate"] in
      when (Py.truthy art_date)
        (try_except
           (d ← eval (Lib.strptime art_date);
            modify_services (set_art_start d))
           pass)
  | None => pass
  end.

(** Lines 77-86. *)
Definition extract_regimens (root : ET.Element) : M unit :=
  for_ (ET.findall root "Regimen") (λ reg,
    let date := visit_date reg in
    let r := regimen_of reg in
    modify_services (set_regimen date r) ;;
    when (Py.contains "INH" (Lib.upper (code r)))
      (modify_services (add_ipt date))).

(** Lines 88-92. *)
Definition extract_encounters (root : ET.Element) : M unit :=
  for_ (ET.findall root "HIVEncounter") (λ e,
    modify_services (set_encounter (visit_date e) (encounter_of e))).

(** Lines 94-99. *)
Definition extract_labs (root : ET.Element) : M unit :=
  for_ (ET.findall root "LaboratoryReport") (λ l,
    modify_services (set_lab (visit_date l) (lab_of l))).

Definition extract_services_with_dates (xml_file : ET.xml_file) : M services :=
  root ← eval (ET.parse xml_file);
  modify_services (λ _, empty_services) ;;
  extract_demographics root ;;
  extract_common root ;;
  extract_art_start root ;;
  extract_regimens root ;;
  extract_encounters root ;;
  extract_labs root ;;
  get_services.

(* ===================================================================== *)
(** ** [validate_ndr] (app.py, lines 103-158) *)
(* ===================================================================== *)

Definition msg_missing_arv (date : string) : string :=
  "❌ Missing ARV regimen in encounter on " +:+ date +:+ ".".

Definition msg_missing_visit_date : string :=
  "❌ Missing VisitDate in an encounter.".

Definition msg_before_art (date : string) (art_start : Py.datetime) : string :=
  "❌ Encounter on " +:+ date +:+ " before ARTStartDate " +:+
  Py.date_str art_start +:+ ".".

Definition msg_tb_no_ipt (d : string) : string :=
  "❌ TB positive on " +:+ d +:+ ", but no IPT regimen found.".

Definition msg_lab (date : string) : string :=
  "❌ Lab report on " +:+ date +:+ " missing test ID or collection date.".

Definition msg_mmd (date : string) : string :=
  "❌ Regimen on " +:+ date +:+ " has duration >30 but no MMD.".

Definition msg_arv_mismatch (date encounter_arv regimen_code : string)
  : string :=
  "❌ ARV mismatch on " +:+ date +:+ ": Encounter=" +:+ encounter_arv +:+
  ", Regimen=" +:+ regimen_code.

Definition msg_age_mismatch (age : string) (calc_age : Z) : string :=
  "❌ Reported age " +:+ age +:+ " does not match calculated age " +:+
  Py.str_of_int calc_age +:+ ".".

Definition msg_age_format : string :=
  "⚠️ Could not validate DateOfBirth or age due to format issues.".

(** Rule 1, lines 105-109. *)
Definition check_encounters (services : services) : M unit :=
  for_ (items (encounters services)) (λ '(date, e),
    when (negb (Py.truthy (arv e))) (append (msg_missing_arv date)) ;;
    when (String.eqb date "Unknown") (append msg_missing_visit_date)).

(** Rule 2, lines 111-119. *)
Definition check_art_start (services : services) : M unit :=
  match art_start services with
  | Some art_start =>
      for_ (keys (encounters services)) (λ date,
        try_except
          (visit_date ← eval (Lib.strptime (Some date));
           when (Py.dt_lt visit_date art_start)
             (append (msg_before_art date art_start)))
          pass)
  | None => pass
  end.

(** [[d for d, e in services['encounters'].items() if e.get('tb') == '1']] *)
Definition tb_encounters (services : services) : list string :=
  map fst (filter (λ de, tb (snd de) = Some "1") (items (encounters services))).

Definition nonempty {A} (l : list A) : bool :=
  match l with [] => false | _ :: _ => true end.

(** Rule 3, lines 121-124. *)
Definition check_tb_ipt (services : services) : M unit :=
  let tb_encounters := tb_encounters services in
  when (nonempty tb_encounters && bool_decide (ipt_codes services = ∅))
    (for_ tb_encounters (λ d, append (msg_tb_no_ipt d))).

(** Rule 4, lines 126-128. *)
Definition check_labs (services : services) : M unit :=
  for_ (items (labs services)) (λ '(date, l),
    when (negb (Py.truthy (test_id l)) || negb (Py.truthy (collected l)))
      (append (msg_lab date))).

(** [int(x or 0)] *)
Definition int_or_0 (x : option string) : Py.result Z :=
  if Py.truthy x then Lib.int x else inr 0.

(** Rule 5, lines 130-136. *)
Definition check_mmd (services : services) : M unit :=
  for_ (items (regimens services)) (λ '(date, r),
    try_except
      (duration ← eval (int_or_0 (duration r));
       when ((30 <? duration) && negb (Py.truthy (mmd r)))
         (append (msg_mmd date)))
      pass).

(** Rule 6, lines 138-144. *)
Definition check_arv_match (services : services) : M unit :=
  for_ (items (encounters services)) (λ '(date, e),
    let encounter_arv := arv e in
    match dict_get date (regimens services) with
    | Some regimen =>
        when (bool_decide (type regimen = Some "ART"))
          (let regimen_code := code regimen in
           when (Py.truthy encounter_arv && Py.truthy (Some regimen_code) &&
                 negb (bool_decide (encounter_arv = Some regimen_code)))
             (append (msg_arv_mismatch date (Py.str_of encounter_arv)
                        regimen_code)))
    | None => pass
    end).

(** [rpt_dt.year - dob_dt.year -
     ((rpt_dt.month, rpt_dt.day) < (dob_dt.month, dob_dt.day))] *)
Definition calc_age (dob_dt rpt_dt : Py.datetime) : Z :=
  Py.year rpt_dt - Py.year dob_dt -
  (if Py.pair_lt (Py.month rpt_dt, Py.day rpt_dt)
                 (Py.month dob_dt, Py.day dob_dt) then 1 else 0).

(** Rule 7, lines 146-156. *)
Definition check_age (services : services) : M unit :=
  let dob := patient_get "dob" services in
  let age := patient_get "age" services in
  let report_date := patient_get "report_date" services in
  try_except
    (dob_dt ← eval (Lib.strptime dob);
     rpt_dt ← eval (Lib.strptime report_date);
     let calc_age := calc_age dob_dt rpt_dt in
     reported ← eval (Lib.int age);
     when (1 <? Z.abs (reported - calc_age))
       (append (msg_age_mismatch (Py.str_of age) calc_age)))
    (append msg_age_format).

Definition validate_ndr (services : services) : M (list string) :=
  set_issues [] ;;
  check_encounters services ;;
  check_art_start services ;;
  check_tb_ipt services ;;
  check_labs services ;;
  check_mmd services ;;
  check_arv_match services ;;
  check_age services ;;
  get_issues.

(** Lines 179-180 of [upload_file]: extraction, then validation. *)
Definition pipeline (xml_file : ET.xml_file) : M (list string) :=
  services ← extract_services_with_dates xml_file;
  validate_ndr services.

(* ===================================================================== *)
(** ** Reasoning about statements *)
(* ===================================================================== *)

(** The statement completes, appends [out] to [issues] and changes nothing
    else. *)
Definition emits (m : M unit) (out : list string) : Prop :=
  ∀ st, m st = (inr (), mk_store (v_services st) (v_issues st ++ out)).

(** The statement completes, turns [services] into [f services] and changes
    nothing else. *)
Definition updates (m : M unit) (f : services → services) : Prop :=
  ∀ st, m st = (inr (), mk_store (f (v_services st)) (v_issues st)).

(* ===================================================================== *)
(** ** What each rule appends *)
(* ===================================================================== *)

Definition encounter_issues (s : services) : list string :=
  flat_map (λ '(date, e),
      (if negb (Py.truthy (arv e)) then [msg_missing_arv date] else []) ++
      (if String.eqb date "Unknown" then [msg_missing_visit_date] else []))
    (items (encounters s)).

Definition art_start_issues (s : services) : list string :=
  match art_start s with
  | Some a =>
      flat_map (λ date,
          match Lib.strptime (Some date) with
          | inr v => if Py.dt_lt v a then [msg_before_art date a] else []
          | inl _ => []
          end)
        (keys (encounters s))
  | None => []
  end.

Definition tb_ipt_issues (s : services) : list string :=
  if nonempty (tb_encounters s) && bool_decide (ipt_codes s = ∅)
  then flat_map (λ d, [msg_tb_no_ipt d]) (tb_encounters s)
  else [].

Definition lab_issues (s : services) : list string :=
  flat_map (λ '(date, l),
      if negb (Py.truthy (test_id l)) || negb (Py.truthy (collected l))
      then [msg_lab date] else [])
    (items (labs s)).

Definition mmd_issues (s : services) : list string :=
  flat_map (λ '(date, r),
      match int_or_0 (duration r) with
      | inr n => if (30 <? n) && negb (Py.truthy (mmd r))
                 then [msg_mmd date] else []
      | inl _ => []
      end)
    (items (regimens s)).

Definition arv_match_issues (s : services) : list string :=
  flat_map (λ '(date, e),
      match dict_get date (regimens s) with
      | Some r =>
          if bool_decide (type r = Some "ART") then
            if Py.truthy (arv e) && Py.truthy (Some (code r)) &&
               negb (bool_decide (arv e = Some (code r)))
            then [msg_arv_mismatch date (Py.str_of (arv e)) (code r)]
            else []
          else []
      | None => []
      end)
    (items (encounters s)).

Definition age_issues (s : services) : list string :=
  match Lib.strptime (patient_get "dob" s),
        Lib.strptime (patient_get "report_date" s),
        Lib.int (patient_get "age" s) with
  | inr dob_dt, inr rpt_dt, inr reported =>
      if 1 <? Z.abs (reported - calc_age dob_dt rpt_dt)
      then [msg_age_mismatch (Py.str_of (patient_get "age" s))
              (calc_age dob_dt rpt_dt)]
      else []
  | _, _, _ => [msg_age_format]
  end.

Definition all_issues (s : services) : list string :=
  encounter_issues s ++ art_start_issues s ++ tb_ipt_issues s ++
  lab_issues s ++ mmd_issues s ++ arv_match_issues s ++ age_issues s.

(* ===================================================================== *)
(** ** The kinds of issue *)
(* ===================================================================== *)

(** Every issue text opens with wording fixed by the rule that appends it;
    the kind of an issue is read from that opening. *)
Inductive kind :=
  | MissingArv | MissingVisitDate | BeforeArtStart | TbNoIpt
  | LabIncomplete | MmdMissing | ArvMismatch | AgeMismatch | AgeFormat.

#[global] Instance kind_eq_dec : EqDecision kind.
Proof. solve_decision. Defined.

Definition opening (k : kind) : string :=
  match k with
  | MissingArv => "❌ Missing ARV regimen in encounter on "
  | MissingVisitDate => "❌ Missing VisitDate in an encounter."
  | BeforeArtStart => "❌ Encounter on "
  | TbNoIpt => "❌ TB positive on "
  | LabIncomplete => "❌ Lab report on "
  | MmdMissing => "❌ Regimen on "
  | ArvMismatch => "❌ ARV mismatch on "
  | AgeMismatch => "❌ Reported age "
  | AgeFormat => "⚠️ Could not validate DateOfBirth or age due to format issues."
  end.

Fixpoint starts_with (p s : string) : bool :=
  match p with
  | EmptyString => true
  | String a p' =>
      match s with
      | String b s' => Ascii.eqb a b && starts_with p' s'
      | EmptyString => false
      end
  end.

Definition is_kind (k : kind) (msg : string) : bool :=
  starts_with (opening k) msg.

(** The issues of kind [k] in a report, in order. *)
Definition of_kind (k : kind) (issues : list string) : list string :=
  List.filter (is_kind k) issues.

(** A list all of whose issues have kind [k0]. *)
Definition all_kind (k0 : kind) (l : list string) : Prop :=
  ∀ k, Forall (λ m, is_kind k m = bool_decide (k = k0)) l.

(* ===================================================================== *)
(** ** What the extractor builds *)
(* ===================================================================== *)

(** Lines 84-86, for one [Regimen] node. *)
Definition regimen_step (reg : ET.Element) (s : services) : services :=
  let s' := set_regimen (visit_date reg) (regimen_of reg) s in
  if Py.contains "INH" (Lib.upper (code (regimen_of reg)))
  then add_ipt (visit_date reg) s' else s'.

(** The dict a loop of [d[key x] = val x] builds from [d]. *)
Definition collect {X V} (key : X → string) (val : X → V) (l : list X)
    (d : pydict V) : pydict V :=
  fold_left (λ d x, dict_set (key x) (val x) d) l d.

(** A regimen node whose code marks an IPT regimen. *)
Definition is_ipt (reg : ET.Element) : bool :=
  Py.contains "INH" (Lib.upper (code (regimen_of reg))).

Definition collect_ipt (l : list ET.Element) (X : gset string) : gset string :=
  fold_left (λ X reg, if is_ipt reg then {[visit_date reg]} ∪ X else X) l X.

Definition patient_of (root : ET.Element) : gmap string (option string) :=
  let p :=
    match ET.find root "PatientDemographics" with
    | Some patient => <["dob" := ET.findtext patient ["PatientDateOfBirth"]]> ∅
    | None => ∅
    end in
  match ET.find root "CommonQuestions" with
  | Some common =>
      <["report_date" := ET.findtext common ["DateOfLastReport"]]>
        (<["age" := ET.findtext common ["PatientAge"]]> p)
  | None => p
  end.

Definition art_start_of (root : ET.Element) : option Py.datetime :=
  match ET.find root "HIVQuestions" with
  | Some hiv_q =>
      let art_date := ET.findtext hiv_q ["ARTStartDate"] in
      if Py.truthy art_date then
        match Lib.strptime art_date with
        | inr d => Some d
        | inl _ => None
        end
      else None
  | None => None
  end.

Definition extracted (root : ET.Element) : services :=
  {| encounters :=
       collect visit_date encounter_of (ET.findall root "HIVEncounter") [];
     regimens := collect visit_date regimen_of (ET.findall root "Regimen") [];
     labs := collect visit_date lab_of (ET.findall root "LaboratoryReport") [];
     patient := patient_of root;
     art_start := art_start_of root;
     ipt_codes := collect_ipt (ET.findall root "Regimen") ∅ |}.

(* ===================================================================== *)
(** ** Worked documents *)
(* ===================================================================== *)

Definition leaf (t x : string) : ET.Element := ET.Elem t (Some x) [].

Definition hiv_encounter (fields : list ET.Element) : ET.Element :=
  ET.Elem "HIVEncounter" None fields.

Definition arv_code (c : string) : ET.Element :=
  ET.Elem "ARVDrugRegimen" None [leaf "Code" c].

Definition regimen_node (date c : string) (fields : list ET.Element)
  : ET.Element :=
  ET.Elem "Regimen" None
    (leaf "VisitDate" date :: ET.Elem "PrescribedRegimen" None [leaf "Code" c]
     :: fields).

Definition report (sections : list ET.Element) : ET.xml_file :=
  ET.Document
    (ET.Elem "Container" None [ET.Elem "IndividualReport" None sections]).

(** One encounter with an ARV code, TB status "0", no regimen, no date of
    birth. *)
Definition scenario_a : ET.xml_file :=
  report [hiv_encounter [leaf "VisitDate" "2024-01-10";
                         arv_code "TDF+3TC+DTG"; leaf "TBStatus" "0"]].

(** An encounter two weeks before the ART start. *)
Definition scenario_b : ET.xml_file :=
  report [ET.Elem "HIVQuestions" None [leaf "ARTStartDate" "2024-02-01"];
          hiv_encounter [leaf "VisitDate" "2024-01-15";
                         arv_code "TDF+3TC+DTG"]].

(** A TB-positive encounter and no IPT regimen anywhere. *)
Definition scenario_c : ET.xml_file :=
  report [hiv_encounter [leaf "VisitDate" "2024-03-01";
                         arv_code "TDF+3TC+DTG"; leaf "TBStatus" "1"];
          regimen_node "2024-03-01" "TDF+3TC+DTG" []].

(** A patient born 2000-06-15, reported on 2024-06-10 at the given age. *)
Definition scenario_d (age : string) : ET.xml_file :=
  report [ET.Elem "PatientDemographics" None
            [leaf "PatientDateOfBirth" "2000-06-15"];
          ET.Elem "CommonQuestions" None
            [leaf "PatientAge" age; leaf "DateOfLastReport" "2024-06-10"]].

(** Two regimens of one visit, the first an IPT regimen of 60 days, with a
    TB-positive encounter whose ARV code is empty, an encounter without a
    visit date, and a lab report without its collection date. *)
Definition overwritten : ET.Element :=
  ET.Elem "Container" None
    [regimen_node "2024-01-15" "inh-300"
       [leaf "PrescribedRegimenDuration" "60"];
     regimen_node "2024-01-15" "TDF+3TC+DTG"
       [leaf "PrescribedRegimenTypeCode" "ART";
        leaf "PrescribedRegimenDuration" " 90 "];
     ET.Elem "Encounters" None
       [hiv_encounter [leaf "VisitDate" "2024-01-15";
                       ET.Elem "ARVDrugRegimen" None [ET.Elem "Code" None []];
                       leaf "TBStatus" "1"];
        hiv_encounter [arv_code "ABC+3TC"]];
     ET.Elem "LaboratoryReport" None
       [leaf "VisitDate" "2024-01-15"; leaf "LaboratoryTestIdentifier" "1";
        ET.Elem "CollectionDate" None []]].

(* ===================================================================== *)
(** ** The report as a whole *)
(* ===================================================================== *)

(** The rule of [validate_ndr] that appends issues of a kind, numbered in
    the order the rules run. *)
Definition rule_of (k : kind) : nat :=
  match k with
  | MissingArv | MissingVisitDate => 1
  | BeforeArtStart => 2
  | TbNoIpt => 3
  | LabIncomplete => 4
  | MmdMissing => 5
  | ArvMismatch => 6
  | AgeMismatch | AgeFormat => 7
  end.

Definition kinds : list kind :=
  [MissingArv; MissingVisitDate; BeforeArtStart; TbNoIpt; LabIncomplete;
   MmdMissing; ArvMismatch; AgeMismatch; AgeFormat].

(** The kind of an issue text, if it has one. *)
Definition kind_of (msg : string) : option kind :=
  List.find (λ k, is_kind k msg) kinds.

(** The number of the rule an issue text comes from, 0 if from none. *)
Definition rule_no (msg : string) : nat :=
  match kind_of msg with
  | Some k => rule_of k
  | None => 0
  end.

(** An issue text of kind [k0] and of no other. *)
Definition has_kind (k0 : kind) (m : string) : Prop :=
  ∀ k, is_kind k m = bool_decide (k = k0).

(** An issue text of rule [i]. *)
Definition of_rule (i : nat) (m : string) : Prop :=
  ∃ k, has_kind k m ∧ rule_of k = i.

(** The record with the [dsd] field of every regimen replaced. *)
Definition with_dsd (f : string → regimen → option string) (s : services)
  : services :=
  {| encounters := encounters s;
     regimens :=
       map (λ dr, (dr.1, {| code := code dr.2; type := type dr.2;
                            mmd := mmd dr.2; dsd := f dr.1 dr.2;
                            duration := duration dr.2 |}))
         (regimens s);
     labs := labs s; patient := patient s; art_start := art_start s;
     ipt_codes := ipt_codes s |}.

(** The elements of a list in the order of their first occurrence. *)
Fixpoint first_occurrences (l : list string) : list string :=
  match l with
  | [] => []
  | x :: l' => x :: filter (λ y, y ≠ x) (first_occurrences l')
  end.

(** The day a person born on [dob] turns [n]. *)
Definition birthday (n : Z) (dob : Py.datetime) : Py.datetime :=
  Py.mk_datetime (Py.year dob + n) (Py.month dob) (Py.day dob).

(** The number of elements of a tree. *)
Fixpoint tree_size (e : ET.Element) : nat :=
  match e with
  | ET.Elem _ _ cs =>
      S ((fix sum (l : list ET.Element) : nat :=
            match l with
            | [] => 0%nat
            | c :: l' => (tree_size c + sum l')%nat
            end) cs)
  end.

(** [e] lies below [root] in the tree, at any depth. *)
Inductive below (root : ET.Element) : ET.Element → Prop :=
  | below_child c : c ∈ ET.children root → below root c
  | below_deeper c e : c ∈ ET.children root → below c e → below root e.

(* ===================================================================== *)
(** ** [upload_file] (app.py, lines 160-193) *)
(* ===================================================================== *)

(** An uploaded file: the name the client gave it, and what [ET.parse]
    finds in it once it is saved. *)
Record FileStorage := mk_file {
  filename : string;
  stream : ET.xml_file
}.

(** The request: its method and [request.files.get('file')]. *)
Record request := mk_request {
  method : string;
  files_file : option FileStorage
}.

(** What the view hands to the template. *)
Record page := mk_page {
  page_issues : option (list string);
  error_message : option string
}.

Definition msg_invalid_type : string :=
  "❌ Invalid file type. Please upload an XML file.".

Definition msg_parse_failed : string :=
  "❌ Failed to parse XML. Please upload a well-formed XML file.".

Definition msg_no_file : string := "❌ No file uploaded.".

Definition msg_unexpected (text : string) : string :=
  "❌ An unexpected error occurred: " +:+ text.

(** [file and file.filename]: a [FileStorage] is true when its name is not
    empty. *)
Definition has_file (file : option FileStorage) : option FileStorage :=
  match file with
  | Some f => if Py.truthy (Some (filename f)) then Some f else None
  | None => None
  end.

(** What the file operations of the view do in a run: lines 172-175 (the
    temporary directory, the path, [file.save]) complete or raise;
    [os.path.exists] answers; [os.remove] completes or raises. *)
Record disk := mk_disk {
  save : Py.result ();
  exists_ : bool;
  remove : Py.result ()
}.

(** Lines 177-185: the [try] with its two handlers.  Every exception is an
    [Exception], so nothing passes the second handler. *)
Definition try_pipeline (exn_text : Py.exn → string) (xml_file : ET.xml_file)
  : M page :=
  λ st,
    match pipeline xml_file st with
    | (inr issues, st') => (inr (mk_page (Some issues) None), st')
    | (inl Py.ParseError, st') =>
        (inr (mk_page None (Some msg_parse_failed)), st')
    | (inl e, st') =>
        (inr (mk_page None (Some (msg_unexpected (exn_text e)))), st')
    end.

(** The view.  [exn_text] is [str(e)].  [file.save] stands before the
    [try], so what it raises leaves the view; the [finally] clause removes
    the file when it is there, and what [os.remove] raises leaves the view
    as well. *)
Definition upload_file (exn_text : Py.exn → string) (d : disk) (req : request)
  : M page :=
  if String.eqb (method req) "POST" then
    match has_file (files_file req) with
    | Some file =>
        if negb (PyStr.endswith (PyStr.lower (filename file)) ".xml") then
          ret (mk_page None (Some msg_invalid_type))
        else
          eval (save d) ;;
          p ← try_pipeline exn_text (stream file);
          when (exists_ d) (eval (remove d)) ;;
          ret p
    | None => ret (mk_page None (Some msg_no_file))
    end
  else ret (mk_page None None).

(** The page the [try] of the view settles on, for what [ET.parse] makes of
    the upload. *)
Definition answer (exn_text : Py.exn → string) (xml_file : ET.xml_file)
  : page :=
  match ET.parse xml_file with
  | inr root => mk_page (Some (all_issues (extracted root))) None
  | inl Py.ParseError => mk_page None (Some msg_parse_failed)
  | inl e => mk_page None (Some (msg_unexpected (exn_text e)))
  end.

(* ===================================================================== *)
(** ** Running statements *)
(* ===================================================================== *)

Lemma bind_run {A B} (m : M A) (f : A → M B) (st : store) :
  (m ≫= f) st =
  match m st with
  | (inr a, st') => f a st'
  | (inl e, st') => (inl e, st')
  end.
Proof. reflexivity. Qed.

Lemma store_eta (st : store) : mk_store (v_services st) (v_issues st) = st.
Proof. by destruct st. Qed.

Section Emits.

Lemma emits_pass : emits pass [].
Proof. intros st. unfold pass, ret. by rewrite app_nil_r, store_eta. Qed.

Lemma emits_append (msg : string) : emits (append msg) [msg].
Proof. by intros st. Qed.

Lemma emits_seq (m1 m2 : M unit) (o1 o2 : list string) :
  emits m1 o1 → emits m2 o2 → emits (m1 ;; m2) (o1 ++ o2).
Proof.
  intros H1 H2 st. rewrite bind_run, H1, H2. simpl. by rewrite app_assoc.
Qed.

Lemma emits_when (c : bool) (m : M unit) (o : list string) :
  emits m o → emits (when c m) (if c then o else []).
Proof. intros H. destruct c; [exact H | exact emits_pass]. Qed.

Lemma emits_for {X} (l : list X) (body : X → M unit)
      (out : X → list string) :
  (∀ x, emits (body x) (out x)) → emits (for_ l body) (flat_map out l).
Proof.
  intros Hbody. induction l as [|x l IH]; simpl.
  - exact emits_pass.
  - by apply emits_seq.
Qed.

End Emits.

Section Updates.

Lemma updates_pass : updates pass id.
Proof. intros st. by destruct st. Qed.

Lemma updates_modify (f : services → services) :
  updates (modify_services f) f.
Proof. by intros st. Qed.

Lemma updates_seq (m1 m2 : M unit) (f1 f2 : services → services) :
  updates m1 f1 → updates m2 f2 → updates (m1 ;; m2) (f2 ∘ f1).
Proof. intros H1 H2 st. by rewrite bind_run, H1, H2. Qed.

Lemma updates_when (c : bool) (m : M unit) (f : services → services) :
  updates m f → updates (when c m) (if c then f else id).
Proof. intros H. destruct c; [exact H | exact updates_pass]. Qed.

Lemma updates_for {X} (l : list X) (body : X → M unit)
      (f : X → services → services) :
  (∀ x, updates (body x) (f x)) →
  updates (for_ l body) (λ s, fold_left (λ s x, f x s) l s).
Proof.
  intros Hbody. induction l as [|x l IH]; simpl.
  - exact updates_pass.
  - intros st. by rewrite bind_run, Hbody, IH.
Qed.

End Updates.

(* ===================================================================== *)
(** ** The rules, one by one *)
(* ===================================================================== *)

Section Rules.

Variable s : services.

Lemma check_encounters_emits : emits (check_encounters s) (encounter_issues s).
Proof.
  apply emits_for. intros [date e].
  apply emits_seq; apply emits_when, emits_append.
Qed.

Lemma check_art_start_emits : emits (check_art_start s) (art_start_issues s).
Proof.
  unfold check_art_start, art_start_issues.
  destruct (art_start s) as [a|]; [|exact emits_pass].
  apply emits_for. intros date st.
  unfold try_except. rewrite bind_run. unfold eval.
  destruct (Lib.strptime (Some date)) as [e|v].
  - apply emits_pass.
  - by rewrite (emits_when _ _ _ (emits_append _) st).
Qed.

Lemma check_tb_ipt_emits : emits (check_tb_ipt s) (tb_ipt_issues s).
Proof.
  unfold check_tb_ipt, tb_ipt_issues.
  apply emits_when, emits_for. intros d. apply emits_append.
Qed.

Lemma check_labs_emits : emits (check_labs s) (lab_issues s).
Proof.
  apply emits_for. intros [date l]. apply emits_when, emits_append.
Qed.

Lemma check_mmd_emits : emits (check_mmd s) (mmd_issues s).
Proof.
  apply emits_for. intros [date r] st.
  unfold try_except. rewrite bind_run. unfold eval.
  destruct (int_or_0 (duration r)) as [e|n].
  - apply emits_pass.
  - by rewrite (emits_when _ _ _ (emits_append _) st).
Qed.

Lemma check_arv_match_emits :
  emits (check_arv_match s) (arv_match_issues s).
Proof.
  apply emits_for. intros [date e].
  destruct (dict_get date (regimens s)) as [r|]; [|exact emits_pass].
  apply emits_when, emits_when, emits_append.
Qed.

Lemma check_age_emits : emits (check_age s) (age_issues s).
Proof.
  intros st. unfold check_age, age_issues, try_except.
  rewrite bind_run. unfold eval.
  destruct (Lib.strptime (patient_get "dob" s)) as [e|dob_dt];
    [apply emits_append|].
  rewrite bind_run.
  destruct (Lib.strptime (patient_get "report_date" s)) as [e|rpt_dt];
    [apply emits_append|].
  rewrite bind_run.
  destruct (Lib.int (patient_get "age" s)) as [e|reported];
    [apply emits_append|].
  pose proof (emits_when (1 <? Z.abs (reported - calc_age dob_dt rpt_dt))
                _ _ (emits_append
                       (msg_age_mismatch (Py.str_of (patient_get "age" s))
                          (calc_age dob_dt rpt_dt))) st) as H.
  by rewrite H.
Qed.

(** The whole battery: [validate_ndr] returns the concatenation of what
    the seven rules append, in order, whatever [issues] held before. *)
Lemma validate_ndr_run (st : store) :
  validate_ndr s st =
  (inr (all_issues s), mk_store (v_services st) (all_issues s)).
Proof.
  unfold validate_ndr. rewrite bind_run. unfold set_issues.
  rewrite bind_run, check_encounters_emits. simpl.
  rewrite bind_run, check_art_start_emits. simpl.
  rewrite bind_run, check_tb_ipt_emits. simpl.
  rewrite bind_run, check_labs_emits. simpl.
  rewrite bind_run, check_mmd_emits. simpl.
  rewrite bind_run, check_arv_match_emits. simpl.
  rewrite bind_run, check_age_emits. simpl.
  unfold get_issues, all_issues. simpl.
  by rewrite <- !app_assoc.
Qed.

End Rules.

(* ===================================================================== *)
(** ** Issues by kind *)
(* ===================================================================== *)

Section Kinds.

Lemma kind_missing_arv k d :
  is_kind k (msg_missing_arv d) = bool_decide (k = MissingArv).
Proof. by destruct k. Qed.

Lemma kind_missing_visit_date k :
  is_kind k msg_missing_visit_date = bool_decide (k = MissingVisitDate).
Proof. by destruct k. Qed.

Lemma kind_before_art k d a :
  is_kind k (msg_before_art d a) = bool_decide (k = BeforeArtStart).
Proof. by destruct k. Qed.

Lemma kind_tb_no_ipt k d :
  is_kind k (msg_tb_no_ipt d) = bool_decide (k = TbNoIpt).
Proof. by destruct k. Qed.

Lemma kind_lab k d : is_kind k (msg_lab d) = bool_decide (k = LabIncomplete).
Proof. by destruct k. Qed.

Lemma kind_mmd k d : is_kind k (msg_mmd d) = bool_decide (k = MmdMissing).
Proof. by destruct k. Qed.

Lemma kind_arv_mismatch k d a c :
  is_kind k (msg_arv_mismatch d a c) = bool_decide (k = ArvMismatch).
Proof. by destruct k. Qed.

Lemma kind_age_mismatch k a c :
  is_kind k (msg_age_mismatch a c) = bool_decide (k = AgeMismatch).
Proof. by destruct k. Qed.

Lemma kind_age_format k :
  is_kind k msg_age_format = bool_decide (k = AgeFormat).
Proof. by destruct k. Qed.

Lemma of_kind_app k l1 l2 : of_kind k (l1 ++ l2) = of_kind k l1 ++ of_kind k l2.
Proof. apply List.filter_app. Qed.

Lemma of_kind_all_kind k k0 l :
  all_kind k0 l → of_kind k l = if bool_decide (k = k0) then l else [].
Proof.
  intros H. specialize (H k). induction H as [|m l Hm _ IH]; simpl.
  - by destruct (bool_decide _).
  - rewrite Hm, IH. by destruct (bool_decide _).
Qed.

Lemma all_kind_flat_map {X} k0 (f : X → list string) (l : list X) :
  (∀ x, all_kind k0 (f x)) → all_kind k0 (flat_map f l).
Proof. intros H k. apply Forall_flat_map, Forall_forall. intros x _. apply H. Qed.

Lemma all_kind_nil k0 : all_kind k0 [].
Proof. intros k. constructor. Qed.

Lemma all_kind_if k0 (c : bool) (m : string) :
  (∀ k, is_kind k m = bool_decide (k = k0)) →
  all_kind k0 (if c then [m] else []).
Proof. intros H k. destruct c; repeat constructor. apply H. Qed.

End Kinds.

Lemma flat_map_ext_eq {A B} (f g : A → list B) (l : list A) :
  (∀ x, f x = g x) → flat_map f l = flat_map g l.
Proof. intros H. induction l as [|x l IH]; simpl; [done|]. by rewrite H, IH. Qed.

Section KindsOfRules.

Variable s : services.

Lemma art_start_issues_kind : all_kind BeforeArtStart (art_start_issues s).
Proof.
  unfold art_start_issues. destruct (art_start s) as [a|]; [|apply all_kind_nil].
  apply all_kind_flat_map. intros date.
  destruct (Lib.strptime (Some date)) as [e|v]; [apply all_kind_nil|].
  apply all_kind_if. intros k. apply kind_before_art.
Qed.

Lemma tb_ipt_issues_kind : all_kind TbNoIpt (tb_ipt_issues s).
Proof.
  unfold tb_ipt_issues. destruct (_ && _); [|apply all_kind_nil].
  apply all_kind_flat_map. intros d.
  apply (all_kind_if _ true). intros k. apply kind_tb_no_ipt.
Qed.

Lemma lab_issues_kind : all_kind LabIncomplete (lab_issues s).
Proof.
  apply all_kind_flat_map. intros [date l].
  apply all_kind_if. intros k. apply kind_lab.
Qed.

Lemma mmd_issues_kind : all_kind MmdMissing (mmd_issues s).
Proof.
  apply all_kind_flat_map. intros [date r].
  destruct (int_or_0 (duration r)) as [e|n]; [apply all_kind_nil|].
  apply all_kind_if. intros k. apply kind_mmd.
Qed.

Lemma arv_match_issues_kind : all_kind ArvMismatch (arv_match_issues s).
Proof.
  apply all_kind_flat_map. intros [date e].
  destruct (dict_get date (regimens s)) as [r|]; [|apply all_kind_nil].
  destruct (bool_decide (type r = Some "ART")); [|apply all_kind_nil].
  apply all_kind_if. intros k. apply kind_arv_mismatch.
Qed.

(** Rule 1 appends issues of two kinds. *)
Lemma of_kind_encounter_issues k :
  of_kind k (encounter_issues s) =
  flat_map (λ '(date, e),
      (if bool_decide (k = MissingArv) && negb (Py.truthy (arv e))
       then [msg_missing_arv date] else []) ++
      (if bool_decide (k = MissingVisitDate) && String.eqb date "Unknown"
       then [msg_missing_visit_date] else []))
    (items (encounters s)).
Proof.
  unfold encounter_issues, items.
  induction (encounters s) as [|[date e] l IH]; [done|].
  simpl. rewrite !of_kind_app, IH. f_equal.
  destruct (negb (Py.truthy (arv e))), (String.eqb date "Unknown"); simpl;
    rewrite ?kind_missing_arv, ?kind_missing_visit_date, ?andb_true_r,
      ?andb_false_r;
    by destruct k.
Qed.

(** Rule 7 appends a mismatch issue or the format warning. *)
Lemma of_kind_age_issues k :
  of_kind k (age_issues s) =
  match Lib.strptime (patient_get "dob" s),
        Lib.strptime (patient_get "report_date" s),
        Lib.int (patient_get "age" s) with
  | inr dob_dt, inr rpt_dt, inr reported =>
      if bool_decide (k = AgeMismatch) &&
         (1 <? Z.abs (reported - calc_age dob_dt rpt_dt))
      then [msg_age_mismatch (Py.str_of (patient_get "age" s))
              (calc_age dob_dt rpt_dt)]
      else []
  | _, _, _ => if bool_decide (k = AgeFormat) then [msg_age_format] else []
  end.
Proof.
  unfold age_issues.
  destruct (Lib.strptime (patient_get "dob" s)) as [e1|dob_dt];
    [by destruct k|].
  destruct (Lib.strptime (patient_get "report_date" s)) as [e2|rpt_dt];
    [by destruct k|].
  destruct (Lib.int (patient_get "age" s)) as [e3|reported];
    [by destruct k|].
  destruct (1 <? _); simpl;
    rewrite ?kind_age_mismatch, ?andb_true_r, ?andb_false_r; by destruct k.
Qed.

Lemma of_kind_all_issues k :
  of_kind k (all_issues s) =
  of_kind k (encounter_issues s) ++
  (if bool_decide (k = BeforeArtStart) then art_start_issues s else []) ++
  (if bool_decide (k = TbNoIpt) then tb_ipt_issues s else []) ++
  (if bool_decide (k = LabIncomplete) then lab_issues s else []) ++
  (if bool_decide (k = MmdMissing) then mmd_issues s else []) ++
  (if bool_decide (k = ArvMismatch) then arv_match_issues s else []) ++
  of_kind k (age_issues s).
Proof.
  unfold all_issues. rewrite !of_kind_app.
  by rewrite (of_kind_all_kind _ _ _ art_start_issues_kind),
    (of_kind_all_kind _ _ _ tb_ipt_issues_kind),
    (of_kind_all_kind _ _ _ lab_issues_kind),
    (of_kind_all_kind _ _ _ mmd_issues_kind),
    (of_kind_all_kind _ _ _ arv_match_issues_kind).
Qed.

Lemma of_kind_encounter_other k :
  k ≠ MissingArv → k ≠ MissingVisitDate → of_kind k (encounter_issues s) = [].
Proof.
  intros H1 H2. rewrite of_kind_encounter_issues.
  rewrite !bool_decide_eq_false_2 by done. simpl.
  induction (items (encounters s)) as [|[date e] l IH]; [done | exact IH].
Qed.

Lemma of_kind_age_other k :
  k ≠ AgeMismatch → k ≠ AgeFormat → of_kind k (age_issues s) = [].
Proof.
  intros H1 H2. rewrite of_kind_age_issues.
  rewrite !bool_decide_eq_false_2 by done. simpl.
  by repeat destruct (_ : Py.result _).
Qed.

(** The issues of one kind in the whole report are those of the rule that
    appends that kind. *)
Lemma of_kind_before_art_start :
  of_kind BeforeArtStart (all_issues s) = art_start_issues s.
Proof.
  rewrite of_kind_all_issues, of_kind_encounter_other, of_kind_age_other
    by done.
  simpl. apply app_nil_r.
Qed.

Lemma of_kind_tb_no_ipt : of_kind TbNoIpt (all_issues s) = tb_ipt_issues s.
Proof.
  rewrite of_kind_all_issues, of_kind_encounter_other, of_kind_age_other
    by done.
  simpl. apply app_nil_r.
Qed.

Lemma of_kind_lab_incomplete :
  of_kind LabIncomplete (all_issues s) = lab_issues s.
Proof.
  rewrite of_kind_all_issues, of_kind_encounter_other, of_kind_age_other
    by done.
  simpl. apply app_nil_r.
Qed.

Lemma of_kind_mmd_missing : of_kind MmdMissing (all_issues s) = mmd_issues s.
Proof.
  rewrite of_kind_all_issues, of_kind_encounter_other, of_kind_age_other
    by done.
  simpl. apply app_nil_r.
Qed.

Lemma of_kind_missing_arv :
  of_kind MissingArv (all_issues s) =
  flat_map (λ de, if negb (Py.truthy (arv de.2))
                  then [msg_missing_arv de.1] else [])
    (items (encounters s)).
Proof.
  rewrite of_kind_all_issues, of_kind_age_other by done.
  rewrite of_kind_encounter_issues. simpl. rewrite app_nil_r.
  apply flat_map_ext_eq. intros [date e]. simpl. by rewrite app_nil_r.
Qed.

Lemma of_kind_age (k : kind) :
  k = AgeMismatch ∨ k = AgeFormat →
  of_kind k (all_issues s) = of_kind k (age_issues s).
Proof.
  intros Hk. rewrite of_kind_all_issues, of_kind_encounter_other
    by (destruct Hk; by subst).
  by destruct Hk; subst.
Qed.

End KindsOfRules.

(* ===================================================================== *)
(** ** The extractor, block by block *)
(* ===================================================================== *)

Section Extraction.

Variable root : ET.Element.

Lemma extract_demographics_updates :
  updates (extract_demographics root)
    (λ s, match ET.find root "PatientDemographics" with
          | Some patient =>
              set_patient "dob" (ET.findtext patient ["PatientDateOfBirth"]) s
          | None => s
          end).
Proof.
  unfold extract_demographics.
  destruct (ET.find root "PatientDemographics");
    [apply updates_modify | apply updates_pass].
Qed.

Lemma extract_common_updates :
  updates (extract_common root)
    (λ s, match ET.find root "CommonQuestions" with
          | Some common =>
              set_patient "report_date"
                (ET.findtext common ["DateOfLastReport"])
                (set_patient "age" (ET.findtext common ["PatientAge"]) s)
          | None => s
          end).
Proof.
  unfold extract_common.
  destruct (ET.find root "CommonQuestions"); [|apply updates_pass].
  apply (updates_seq _ _ _ _ (updates_modify _) (updates_modify _)).
Qed.

Lemma extract_art_start_updates :
  updates (extract_art_start root)
    (λ s, match ET.find root "HIVQuestions" with
          | Some hiv_q =>
              let art_date := ET.findtext hiv_q ["ARTStartDate"] in
              if Py.truthy art_date then
                match Lib.strptime art_date with
                | inr d => set_art_start d s
                | inl _ => s
                end
              else s
          | None => s
          end).
Proof.
  unfold extract_art_start.
  destruct (ET.find root "HIVQuestions") as [hiv_q|]; [|apply updates_pass].
  simpl. destruct (Py.truthy _); [|apply updates_pass].
  intros st. simpl. unfold try_except. rewrite bind_run. unfold eval.
  destruct (Lib.strptime _) as [e|d]; [apply updates_pass | done].
Qed.

Lemma extract_regimens_updates :
  updates (extract_regimens root)
    (λ s, fold_left (λ s reg, regimen_step reg s) (ET.findall root "Regimen") s).
Proof.
  apply (updates_for _ _ regimen_step). intros reg st.
  pose proof (updates_seq _ _ _ _
                (updates_modify (set_regimen (visit_date reg) (regimen_of reg)))
                (updates_when (is_ipt reg) _ _
                   (updates_modify (add_ipt (visit_date reg)))) st) as H.
  refine (eq_trans H _). unfold regimen_step, is_ipt. simpl.
  by destruct (Py.contains _ _).
Qed.

Lemma extract_encounters_updates :
  updates (extract_encounters root)
    (λ s, fold_left (λ s e, set_encounter (visit_date e) (encounter_of e) s)
            (ET.findall root "HIVEncounter") s).
Proof.
  apply (updates_for _ _ (λ e, set_encounter (visit_date e) (encounter_of e))).
  intros e. apply updates_modify.
Qed.

Lemma extract_labs_updates :
  updates (extract_labs root)
    (λ s, fold_left (λ s l, set_lab (visit_date l) (lab_of l) s)
            (ET.findall root "LaboratoryReport") s).
Proof.
  apply (updates_for _ _ (λ l, set_lab (visit_date l) (lab_of l))).
  intros l. apply updates_modify.
Qed.

End Extraction.

Lemma fold_regimen_step (l : list ET.Element) (s : services) :
  fold_left (λ s reg, regimen_step reg s) l s =
  {| encounters := encounters s;
     regimens := collect visit_date regimen_of l (regimens s);
     labs := labs s; patient := patient s; art_start := art_start s;
     ipt_codes := collect_ipt l (ipt_codes s) |}.
Proof.
  revert s. induction l as [|reg l IH]; intros s; simpl; [by destruct s|].
  rewrite IH. unfold regimen_step, is_ipt.
  by destruct (Py.contains _ _).
Qed.

Lemma fold_set_encounter (l : list ET.Element) (s : services) :
  fold_left (λ s e, set_encounter (visit_date e) (encounter_of e) s) l s =
  {| encounters := collect visit_date encounter_of l (encounters s);
     regimens := regimens s; labs := labs s; patient := patient s;
     art_start := art_start s; ipt_codes := ipt_codes s |}.
Proof.
  revert s. induction l as [|e l IH]; intros s; simpl; [by destruct s|].
  by rewrite IH.
Qed.

Lemma fold_set_lab (l : list ET.Element) (s : services) :
  fold_left (λ s x, set_lab (visit_date x) (lab_of x) s) l s =
  {| encounters := encounters s; regimens := regimens s;
     labs := collect visit_date lab_of l (labs s); patient := patient s;
     art_start := art_start s; ipt_codes := ipt_codes s |}.
Proof.
  revert s. induction l as [|x l IH]; intros s; simpl; [by destruct s|].
  by rewrite IH.
Qed.

(** The extractor, on a well-formed document, returns [extracted root] and
    leaves it in [services], whatever the variables held before. *)
Lemma extract_run (root : ET.Element) (st : store) :
  extract_services_with_dates (ET.Document root) st =
  (inr (extracted root), mk_store (extracted root) (v_issues st)).
Proof.
  unfold extract_services_with_dates. rewrite bind_run. simpl.
  rewrite bind_run. unfold modify_services at 1. simpl.
  rewrite bind_run, extract_demographics_updates. simpl.
  rewrite bind_run, extract_common_updates. simpl.
  rewrite bind_run, extract_art_start_updates. simpl.
  rewrite bind_run, extract_regimens_updates. simpl.
  rewrite bind_run, extract_encounters_updates. simpl.
  rewrite bind_run, extract_labs_updates. simpl.
  unfold get_services. simpl.
  rewrite fold_set_lab, fold_set_encounter, fold_regimen_step. simpl.
  assert (extracted root =
    {| encounters := collect visit_date encounter_of (ET.findall root "HIVEncounter") [];
       regimens := collect visit_date regimen_of (ET.findall root "Regimen") [];
       labs := collect visit_date lab_of (ET.findall root "LaboratoryReport") [];
       patient := patient_of root;
       art_start := art_start_of root;
       ipt_codes := collect_ipt (ET.findall root "Regimen") ∅ |}) as -> by done.
  unfold patient_of, art_start_of.
  destruct (ET.find root "PatientDemographics"),
    (ET.find root "CommonQuestions"),
    (ET.find root "HIVQuestions") as [hiv_q|]; simpl;
    try destruct (Py.truthy (ET.findtext hiv_q ["ARTStartDate"]));
    try destruct (Lib.strptime (ET.findtext hiv_q ["ARTStartDate"]));
    reflexivity.
Qed.

(* ===================================================================== *)
(** ** Dictionaries: keys stay unique, the last write wins *)
(* ===================================================================== *)

Section Dict.

Context {V : Type}.

Lemma dict_get_set (k k' : string) (v : V) (d : pydict V) :
  dict_get k' (dict_set k v d) =
  if String.eqb k k' then Some v else dict_get k' d.
Proof.
  induction d as [|[k0 v0] d IH]; simpl; [done|].
  destruct (String.eqb_spec k0 k) as [->|Hne]; simpl.
  - by destruct (String.eqb k k').
  - rewrite IH. destruct (String.eqb_spec k0 k') as [->|Hne'];
      destruct (String.eqb_spec k k'); congruence.
Qed.

Lemma dict_get_None (k : string) (d : pydict V) :
  dict_get k d = None ↔ k ∉ keys d.
Proof.
  induction d as [|[k0 v0] d IH]; simpl.
  - split; [intros _; apply not_elem_of_nil | done].
  - rewrite not_elem_of_cons, <- IH.
    destruct (String.eqb_spec k0 k); naive_solver.
Qed.

Lemma keys_dict_set (k : string) (v : V) (d : pydict V) :
  keys (dict_set k v d) = if bool_decide (k ∈ keys d) then keys d
                          else keys d ++ [k].
Proof.
  induction d as [|[k0 v0] d IH]; simpl; [done|].
  destruct (String.eqb_spec k0 k) as [->|Hne]; simpl.
  - rewrite bool_decide_eq_true_2; [done | apply elem_of_cons; by left].
  - rewrite IH. destruct (decide (k ∈ keys d)) as [Hin|Hnin].
    + rewrite !bool_decide_eq_true_2; [done | | done].
      apply elem_of_cons; by right.
    + rewrite !bool_decide_eq_false_2; [done | | done].
      rewrite elem_of_cons; naive_solver.
Qed.

Lemma dict_set_NoDup (k : string) (v : V) (d : pydict V) :
  NoDup (keys d) → NoDup (keys (dict_set k v d)).
Proof.
  intros Hd. rewrite keys_dict_set. case_bool_decide; [done|].
  apply NoDup_app. split_and!; [done | | apply NoDup_singleton].
  intros x Hx. rewrite list_elem_of_singleton. by intros ->.
Qed.

Context {X : Type} (key : X → string) (val : X → V).

Lemma collect_NoDup (l : list X) (d : pydict V) :
  NoDup (keys d) → NoDup (keys (collect key val l d)).
Proof.
  revert d. induction l as [|x l IH]; intros d Hd; simpl; [done|].
  by apply IH, dict_set_NoDup.
Qed.

(** After the loop, a key holds the value of the last element written
    under it, or what it held before when none was. *)
Lemma dict_get_collect (k : string) (l : list X) (d : pydict V) :
  dict_get k (collect key val l d) =
  match last (filter (λ x, key x = k) l) with
  | Some x => Some (val x)
  | None => dict_get k d
  end.
Proof.
  revert d. induction l as [|x l IH]; intros d; simpl; [done|].
  rewrite IH, dict_get_set, filter_cons.
  destruct (decide (key x = k)) as [Hk|Hk].
  - rewrite last_cons. destruct (last _); [done|].
    by apply String.eqb_eq in Hk as ->.
  - apply String.eqb_neq in Hk. by rewrite Hk.
Qed.

Lemma elem_of_keys_collect (k : string) (l : list X) :
  k ∈ keys (collect key val l []) ↔ ∃ x, x ∈ l ∧ key x = k.
Proof.
  destruct (decide (k ∈ keys (collect key val l []))) as [Hin|Hnin].
  - split; [intros _ | done].
    destruct (dict_get k (collect key val l [])) as [v|] eqn:Hget;
      [| by apply dict_get_None in Hget].
    rewrite dict_get_collect in Hget.
    destruct (last _) as [x|] eqn:Hlast; [|done].
    apply last_Some_elem_of, list_elem_of_filter in Hlast. naive_solver.
  - split; [done|]. intros (x & Hx & Hk). exfalso.
    apply dict_get_None in Hnin. rewrite dict_get_collect in Hnin.
    destruct (last _) as [y|] eqn:Hlast; [done|].
    apply last_None in Hlast.
    assert (x ∈ filter (λ x, key x = k) l) as Hf
      by by apply list_elem_of_filter.
    rewrite Hlast in Hf. by apply elem_of_nil in Hf.
Qed.

End Dict.

(** The IPT set only grows: a date is in it exactly when it was there
    before or some node of the loop put it there. *)
Lemma elem_of_collect_ipt (date : string) (l : list ET.Element)
      (X : gset string) :
  date ∈ collect_ipt l X ↔
  date ∈ X ∨ ∃ reg, reg ∈ l ∧ is_ipt reg = true ∧ visit_date reg = date.
Proof.
  revert X. induction l as [|reg l IH]; intros X; simpl.
  - split; [by left | intros [?|(reg & Hreg & _)]; [done|]].
    by apply elem_of_nil in Hreg.
  - rewrite IH. setoid_rewrite elem_of_cons.
    destruct (is_ipt reg) eqn:Hipt.
    + rewrite elem_of_union, elem_of_singleton. split.
      * intros [[->|?]|(r & Hr & ?)]; [right; exists reg | by left |
          right; exists r]; split; auto.
      * intros [?|(r & [->|Hr] & Hi & Hd)]; [by left; right | by left; left |].
        right. by exists r.
    + split.
      * intros [?|(r & Hr & ?)]; [by left|]. right. exists r. auto.
      * intros [?|(r & [->|Hr] & Hi & Hd)]; [by left | congruence |].
        right. by exists r.
Qed.

(* ===================================================================== *)
(** ** The two functions as a whole *)
(* ===================================================================== *)

Lemma validate_ndr_returns (s : services) :
  returns (validate_ndr s) (all_issues s).
Proof. intros st. unfold call. by rewrite validate_ndr_run. Qed.

Lemma extract_returns (root : ET.Element) :
  returns (extract_services_with_dates (ET.Document root)) (extracted root).
Proof. intros st. unfold call. by rewrite extract_run. Qed.

Lemma extract_not_well_formed (st : store) :
  extract_services_with_dates ET.NotWellFormed st = (inl Py.ParseError, st).
Proof. reflexivity. Qed.

(** Whatever [ET.parse] raises passes through the extractor, the variables
    untouched. *)
Lemma extract_refused (f : ET.xml_file) (e : Py.exn) (st : store) :
  ET.parse f = inl e → extract_services_with_dates f st = (inl e, st).
Proof.
  intros Hf. unfold extract_services_with_dates. rewrite bind_run.
  unfold eval. by rewrite Hf.
Qed.

Lemma pipeline_run (root : ET.Element) (st : store) :
  pipeline (ET.Document root) st =
  (inr (all_issues (extracted root)),
   mk_store (extracted root) (all_issues (extracted root))).
Proof.
  unfold pipeline. by rewrite bind_run, extract_run, validate_ndr_run.
Qed.

Lemma returns_inj {A} (m : M A) (a b : A) : returns m a → returns m b → a = b.
Proof.
  intros Ha Hb. specialize (Ha (mk_store empty_services [])).
  specialize (Hb (mk_store empty_services [])). congruence.
Qed.

(** ** Small facts the rules rest on *)

Lemma truthy_false (o : option string) :
  Py.truthy o = false ↔ o = None ∨ o = Some "".
Proof.
  destruct o as [[|c t]|]; simpl; split; try done; try by auto.
  intros [?|?]; congruence.
Qed.

Lemma flat_map_if {A B} (c : A → bool) (f : A → B) (l : list A) :
  flat_map (λ x, if c x then [f x] else []) l = map f (List.filter c l).
Proof.
  induction l as [|x l IH]; simpl; [done|]. rewrite IH. by destruct (c x).
Qed.

Lemma flat_map_singleton {A B} (f : A → B) (l : list A) :
  flat_map (λ x, [f x]) l = map f l.
Proof. induction l as [|x l IH]; simpl; [done|]. by rewrite IH. Qed.

(** ** Dates written as [YYYY-MM-DD] *)

Lemma digit_digit_char (d : Z) :
  0 ≤ d ≤ 9 → Py.digit (Py.digit_char d) = Some d.
Proof.
  intros H.
  assert (d ∈ seqZ 0 10) as Hd by (apply elem_of_seqZ; lia).
  clear H. revert d Hd. apply Forall_forall. by repeat constructor.
Qed.

Lemma re_year_zfill4 (y : Z) (rest : string) :
  0 ≤ y ≤ 9999 → Py.re_year (Py.zfill4 y +:+ rest) = Some (y, rest).
Proof.
  intros H. unfold Py.zfill4, Py.zfill2. simpl.
  rewrite !digit_digit_char by (Z.div_mod_to_equations; lia).
  do 2 f_equal. Z.div_mod_to_equations. lia.
Qed.

Lemma re_month_day_zfill2 (m d : Z) :
  1 ≤ m ≤ 12 → 1 ≤ d ≤ 31 →
  Py.re_month_day (Py.re_month (Py.zfill2 m +:+ "-" +:+ Py.zfill2 d)) =
  Some (m, d, "").
Proof.
  intros Hm Hd.
  assert (m ∈ seqZ 1 12) as Hm' by (apply elem_of_seqZ; lia).
  assert (d ∈ seqZ 1 31) as Hd' by (apply elem_of_seqZ; lia).
  assert (Forall (λ m, Forall (λ d,
            Py.re_month_day
              (Py.re_month (Py.zfill2 m +:+ "-" +:+ Py.zfill2 d)) =
            Some (m, d, "")) (seqZ 1 31)) (seqZ 1 12)) as H
    by (vm_compute seqZ; repeat constructor).
  rewrite Forall_forall in H. specialize (H m Hm').
  rewrite Forall_forall in H. exact (H d Hd').
Qed.

Lemma valid_date_range (y m d : Z) :
  Py.valid_date y m d = true → 1 ≤ y ≤ 9999 ∧ 1 ≤ m ≤ 12 ∧ 1 ≤ d ≤ 31.
Proof.
  unfold Py.valid_date, Py.days_in_month. intros Hv. repeat case_match; lia.
Qed.

(** Every date of the calendar, written [YYYY-MM-DD] with its zeros,
    parses to itself. *)
Lemma strptime_iso_date (y m d : Z) :
  Py.valid_date y m d = true →
  Py.strptime_str (Py.iso_date y m d) = Some (Py.mk_datetime y m d).
Proof.
  intros Hv. destruct (valid_date_range _ _ _ Hv) as (Hy & Hm & Hd).
  unfold Py.strptime_str, Py.re_match, Py.iso_date.
  rewrite re_year_zfill4 by lia.
  simpl Py.expect_dash.
  change ("" +:+ Py.zfill2 m +:+ "-" +:+ Py.zfill2 d)
    with (Py.zfill2 m +:+ "-" +:+ Py.zfill2 d).
  cbv beta iota.
  rewrite re_month_day_zfill2 by done. by rewrite Hv.
Qed.

(** What [strptime] returns is a date of the calendar. *)
Lemma strptime_valid (text : string) (dt : Py.datetime) :
  Py.strptime_str text = Some dt →
  Py.valid_date (Py.year dt) (Py.month dt) (Py.day dt) = true.
Proof.
  unfold Py.strptime_str. intros H.
  destruct (Py.re_match text) as [[[[y m] d] [|c r]]|]; try done.
  destruct (Py.valid_date y m d) eqn:Hv; [|done].
  by inversion H.
Qed.

(** [strptime] undoes [str] on dates. *)
Lemma strptime_date_str (dt : Py.datetime) :
  Py.valid_date (Py.year dt) (Py.month dt) (Py.day dt) = true →
  Py.strptime_str (Py.date_str dt) = Some dt.
Proof. intros Hv. unfold Py.date_str. rewrite strptime_iso_date by done. by destruct dt. Qed.

Lemma plain_digit_char (d : Z) :
  0 ≤ d ≤ 9 → plain_char (Py.digit_char d) = true.
Proof.
  intros Hd.
  assert (d ∈ seqZ 0 10) as Hin by (apply elem_of_seqZ; lia).
  clear Hd. revert d Hin. apply Forall_forall. by repeat constructor.
Qed.

(** The text printed for a date of the calendar is plain ASCII. *)
Lemma plain_date_str (dt : Py.datetime) :
  Py.valid_date (Py.year dt) (Py.month dt) (Py.day dt) = true →
  plain (Py.date_str dt) = true.
Proof.
  intros Hv. destruct (valid_date_range _ _ _ Hv) as (Hy & Hm & Hd).
  unfold Py.date_str, Py.iso_date, Py.zfill4, Py.zfill2. simpl.
  rewrite !plain_digit_char by (Z.div_mod_to_equations; lia).
  done.
Qed.

(** The format is not only met by zero-padded text: month and day may be
    written without their leading zero. *)
Example strptime_unpadded :
  Lib.strptime_str "2024-1-5" = Some (Py.mk_datetime 2024 1 5).
Proof. by rewrite Lib.strptime_str_plain. Qed.

(** A day that is not in the calendar, and text after the date, are
    refused. *)
Example strptime_refused :
  Lib.strptime_str "2023-02-29" = None ∧
  Lib.strptime_str "2024-01-15T00:00:00" = None ∧
  Lib.strptime_str "15/01/2024" = None.
Proof. by rewrite !Lib.strptime_str_plain. Qed.

(** [int] reads blanks around the digits and a sign, and refuses a
    fraction, letters and the empty string. *)
Example int_str_read :
  Lib.int_str " 90 " = Some 90 ∧ Lib.int_str "-3" = Some (-3) ∧
  Lib.int_str "12.5" = None ∧ Lib.int_str "thirty" = None ∧
  Lib.int_str "" = None.
Proof. by rewrite !Lib.int_str_plain. Qed.

Lemma pair_lt_irrefl (a : Z * Z) : Py.pair_lt a a = false.
Proof. unfold Py.pair_lt. destruct a as [x y]. simpl. lia. Qed.

Lemma dt_lt_irrefl (a : Py.datetime) : Py.dt_lt a a = false.
Proof. unfold Py.dt_lt. rewrite pair_lt_irrefl. lia. Qed.

Lemma dt_lt_asym (a b : Py.datetime) :
  Py.dt_lt a b = true → Py.dt_lt b a = false.
Proof. unfold Py.dt_lt, Py.pair_lt. simpl. lia. Qed.

(* ===================================================================== *)
(** ** The validator *)
(* ===================================================================== *)

(** C2 — validator totality.  For every normalized record, whatever its
    fields hold, [validate_ndr] returns a list of issues and raises nothing;
    and each of the seven rules, run from any store, completes having only
    appended issues, so that no rule's parse failure reaches the next. *)
Theorem validator_total (s : services) :
  (∃ issues, returns (validate_ndr s) issues) ∧
  Forall (λ rule : services → M (), ∃ out, emits (rule s) out)
    [check_encounters; check_art_start; check_tb_ipt; check_labs;
     check_mmd; check_arv_match; check_age].
Proof.
  split.
  - exists (all_issues s). apply validate_ndr_returns.
  - repeat constructor; eexists.
    + apply check_encounters_emits.
    + apply check_art_start_emits.
    + apply check_tb_ipt_emits.
    + apply check_labs_emits.
    + apply check_mmd_emits.
    + apply check_arv_match_emits.
    + apply check_age_emits.
Qed.





(** C10 — present-but-empty fields count as missing.  The report holds, in
    encounter order, one "Missing ARV regimen" issue per encounter whose ARV
    code is absent or the empty string, and, in lab order, one
    lab-completeness issue per lab report whose test identifier or
    collection date is absent or the empty string; so an encounter with an
    empty ARV code, and a lab report with an empty test identifier or an
    empty collection date, each have their issue in the report. *)
Theorem empty_counts_as_missing (s : services) :
  ∃ issues, returns (validate_ndr s) issues ∧
    let missing (x : option string) := bool_decide (x = None ∨ x = Some "") in
    of_kind MissingArv issues =
      map (λ de, msg_missing_arv de.1)
        (List.filter (λ de, missing (arv de.2)) (items (encounters s))) ∧
    of_kind LabIncomplete issues =
      map (λ dl, msg_lab dl.1)
        (List.filter (λ dl, missing (test_id dl.2) || missing (collected dl.2))
           (items (labs s))) ∧
    (∀ date e, (date, e) ∈ items (encounters s) → arv e = Some "" →
               msg_missing_arv date ∈ issues) ∧
    (∀ date l, (date, l) ∈ items (labs s) →
               test_id l = Some "" ∨ collected l = Some "" →
               msg_lab date ∈ issues).
Proof.
  exists (all_issues s). split; [apply validate_ndr_returns|].
  assert (∀ x, negb (Py.truthy x) = bool_decide (x = None ∨ x = Some ""))
    as Hmissing.
  { intros x. destruct (Py.truthy x) eqn:Ht; simpl; symmetry.
    - apply bool_decide_eq_false_2. rewrite <- truthy_false. congruence.
    - by apply bool_decide_eq_true_2, truthy_false. }
  assert (of_kind MissingArv (all_issues s) =
          map (λ de, msg_missing_arv de.1)
            (List.filter (λ de, bool_decide (arv de.2 = None ∨ arv de.2 = Some ""))
               (items (encounters s)))) as Harv.
  { rewrite of_kind_missing_arv, <- flat_map_if.
    apply flat_map_ext_eq. intros de. by rewrite Hmissing. }
  assert (of_kind LabIncomplete (all_issues s) =
          map (λ dl, msg_lab dl.1)
            (List.filter
               (λ dl, bool_decide (test_id dl.2 = None ∨ test_id dl.2 = Some "") ||
                      bool_decide (collected dl.2 = None ∨ collected dl.2 = Some ""))
               (items (labs s)))) as Hlab.
  { rewrite of_kind_lab_incomplete. unfold lab_issues.
    rewrite <- flat_map_if. apply flat_map_ext_eq. intros [date l].
    by rewrite !Hmissing. }
  simpl. split_and!; [exact Harv | exact Hlab | |].
  - intros date e Hin He.
    assert (msg_missing_arv date ∈ of_kind MissingArv (all_issues s)) as H.
    { rewrite Harv. apply list_elem_of_In, in_map_iff. exists (date, e).
      split; [done|]. apply List.filter_In. split; [by apply list_elem_of_In|].
      simpl. apply bool_decide_eq_true_2. by right. }
    apply list_elem_of_In, List.filter_In in H as [H _].
    by apply list_elem_of_In.
  - intros date l Hin Hl.
    assert (msg_lab date ∈ of_kind LabIncomplete (all_issues s)) as H.
    { rewrite Hlab. apply list_elem_of_In, in_map_iff. exists (date, l).
      split; [done|]. apply List.filter_In. split; [by apply list_elem_of_In|].
      simpl. apply orb_true_iff.
      destruct Hl as [Hl|Hl]; [left|right];
        apply bool_decide_eq_true_2; by right. }
    apply list_elem_of_In, List.filter_In in H as [H _].
    by apply list_elem_of_In.
Qed.

(* ===================================================================== *)
(** ** The extractor *)
(* ===================================================================== *)

(** C6 — last-write-wins extraction.  For every well-formed document the
    extractor returns a record in which each of the three collections has
    no key twice and has as keys exactly the visit dates of its nodes; a
    node is filed under its [VisitDate] text, or under the sentinel
    "Unknown" when that is missing or empty; and a key holds the entry built
    from the last node, in document order, filed under it (and is absent
    when there is no such node). *)
Theorem last_write_wins (root : ET.Element) :
  ∃ s, returns (extract_services_with_dates (ET.Document root)) s ∧
    (NoDup (keys (encounters s)) ∧ NoDup (keys (regimens s)) ∧
     NoDup (keys (labs s))) ∧
    (∀ n, visit_date n =
          match ET.findtext n ["VisitDate"] with
          | None | Some "" => "Unknown"
          | Some date => date
          end) ∧
    (∀ k, (k ∈ keys (encounters s) ↔
           ∃ n, n ∈ ET.findall root "HIVEncounter" ∧ visit_date n = k) ∧
          dict_get k (encounters s) =
          encounter_of <$>
            last (filter (λ n, visit_date n = k)
                    (ET.findall root "HIVEncounter"))) ∧
    (∀ k, (k ∈ keys (regimens s) ↔
           ∃ n, n ∈ ET.findall root "Regimen" ∧ visit_date n = k) ∧
          dict_get k (regimens s) =
          regimen_of <$>
            last (filter (λ n, visit_date n = k) (ET.findall root "Regimen"))) ∧
    (∀ k, (k ∈ keys (labs s) ↔
           ∃ n, n ∈ ET.findall root "LaboratoryReport" ∧ visit_date n = k) ∧
          dict_get k (labs s) =
          lab_of <$>
            last (filter (λ n, visit_date n = k)
                    (ET.findall root "LaboratoryReport"))).
Proof.
  exists (extracted root). split; [apply extract_returns|].
  split_and!; simpl.
  - apply collect_NoDup, NoDup_nil_2.
  - apply collect_NoDup, NoDup_nil_2.
  - apply collect_NoDup, NoDup_nil_2.
  - intros n. unfold visit_date.
    by destruct (ET.findtext n ["VisitDate"]) as [[|c t]|].
  - intros k. split; [apply elem_of_keys_collect|].
    rewrite dict_get_collect. by destruct (last _).
  - intros k. split; [apply elem_of_keys_collect|].
    rewrite dict_get_collect. by destruct (last _).
  - intros k. split; [apply elem_of_keys_collect|].
    rewrite dict_get_collect. by destruct (last _).
Qed.


(** C9 — the IPT set survives overwriting.  There is a well-formed document
    with two [Regimen] nodes of the same visit date, the earlier with a code
    that contains "INH" in some letter case and the later with one that does
    not, for which the IPT-date set of the extracted record contains that
    date while the entry kept for it has the later, non-INH code.  In
    general a date is in the IPT set exactly when some [Regimen] node of the
    document filed under it has such a code: membership is decided node by
    node and a later node of the same date never removes it. *)
Theorem ipt_survives_overwrite :
  (∃ root date earlier later s,
     ET.findall root "Regimen" = [earlier; later] ∧
     visit_date earlier = date ∧ visit_date later = date ∧
     Py.contains "INH" (Lib.upper (code (regimen_of earlier))) = true ∧
     Py.contains "INH" (Lib.upper (code (regimen_of later))) = false ∧
     returns (extract_services_with_dates (ET.Document root)) s ∧
     date ∈ ipt_codes s ∧
     dict_get date (regimens s) = Some (regimen_of later)) ∧
  (∀ root s,
     returns (extract_services_with_dates (ET.Document root)) s →
     ∀ date,
       date ∈ ipt_codes s ↔
       ∃ reg, reg ∈ ET.findall root "Regimen" ∧ visit_date reg = date ∧
              Py.contains "INH" (Lib.upper (code (regimen_of reg))) = true).
Proof.
  split.
  - pose (mk := λ c : string,
        ET.Elem "Regimen" None
          [ET.Elem "VisitDate" (Some "2024-01-01") [];
           ET.Elem "PrescribedRegimen" None [ET.Elem "Code" (Some c) []]]).
    assert (Py.contains "INH" (Lib.upper (code (regimen_of (mk "inh-300"))))
            = true) as Hinh.
    { change (code (regimen_of (mk "inh-300"))) with "inh-300".
      by rewrite Lib.upper_plain. }
    exists (ET.Elem "Container" None [mk "inh-300"; mk "TDF-3TC-DTG"]),
      "2024-01-01", (mk "inh-300"), (mk "TDF-3TC-DTG"),
      (extracted (ET.Elem "Container" None [mk "inh-300"; mk "TDF-3TC-DTG"])).
    split_and!; [reflexivity | reflexivity | reflexivity | exact Hinh | |
                 apply extract_returns | | reflexivity].
    + change (code (regimen_of (mk "TDF-3TC-DTG"))) with "TDF-3TC-DTG".
      by rewrite Lib.upper_plain.
    + apply (proj2 (elem_of_collect_ipt "2024-01-01"
                      [mk "inh-300"; mk "TDF-3TC-DTG"] ∅)).
      right. exists (mk "inh-300").
      split_and!; [|exact Hinh | reflexivity].
      apply elem_of_cons. by left.
  - intros root s Hs date.
    rewrite (returns_inj _ _ _ Hs (extract_returns root)). simpl.
    rewrite elem_of_collect_ipt. unfold is_ipt. split.
    + intros [Hin|(reg & ? & ? & ?)]; [by apply elem_of_empty in Hin|].
      by exists reg.
    + intros (reg & ? & ? & ?). right. by exists reg.
Qed.

(* ===================================================================== *)
(** ** The pipeline *)
(* ===================================================================== *)

(** C8 — determinism of the pipeline.  What extraction followed by
    validation returns depends on the input document alone: it is the same
    from any two stores, and a second run, started from the variables the
    first run left behind, returns what the first returned. *)
Theorem pipeline_deterministic (f : ET.xml_file) :
  (∀ st1 st2, call (pipeline f) st1 = call (pipeline f) st2) ∧
  (∀ st, call (pipeline f) (pipeline f st).2 = call (pipeline f) st).
Proof.
  assert (∀ st1 st2, call (pipeline f) st1 = call (pipeline f) st2) as H.
  { intros st1 st2. unfold call. destruct f as [| | | |root]; try reflexivity.
    by rewrite !pipeline_run. }
  split; [exact H | intros st; apply H].
Qed.

(* ===================================================================== *)
(** ** Further properties of the validator *)
(* ===================================================================== *)

Lemma of_kind_arv_mismatch (s : services) :
  of_kind ArvMismatch (all_issues s) = arv_match_issues s.
Proof.
  rewrite of_kind_all_issues, of_kind_encounter_other, of_kind_age_other
    by done.
  simpl. apply app_nil_r.
Qed.

Lemma of_kind_missing_visit_date (s : services) :
  of_kind MissingVisitDate (all_issues s) =
  flat_map (λ de, if String.eqb de.1 "Unknown"
                  then [msg_missing_visit_date] else [])
    (items (encounters s)).
Proof.
  rewrite of_kind_all_issues, of_kind_age_other by done.
  rewrite of_kind_encounter_issues. simpl. rewrite app_nil_r.
  apply flat_map_ext_eq. by intros [date e].
Qed.


Lemma filter_eq_NoDup (k : string) (l : list string) :
  NoDup l → filter (λ x, x = k) l = if bool_decide (k ∈ l) then [k] else [].
Proof.
  induction 1 as [|x l Hx Hl IH]; [done|].
  rewrite filter_cons, IH. destruct (decide (x = k)) as [->|Hne].
  - rewrite (bool_decide_eq_false_2 _ Hx).
    rewrite bool_decide_eq_true_2; [done | apply elem_of_cons; by left].
  - destruct (decide (k ∈ l)) as [Hin|Hnin].
    + rewrite !bool_decide_eq_true_2; [done | | done].
      apply elem_of_cons. by right.
    + rewrite !bool_decide_eq_false_2; [done | | done].
      rewrite elem_of_cons. naive_solver.
Qed.

(** X2 — one "Missing VisitDate" issue at most (lines 88-92, 105-109).
    However many [HIVEncounter] nodes of a document are filed under the
    sentinel "Unknown" (their [VisitDate] missing, empty, or the very text
    "Unknown"), the report of the pipeline holds exactly one "Missing
    VisitDate" issue; it holds none when there is no such node. *)
Theorem missing_visit_date_once (root : ET.Element) :
  ∃ issues, returns (pipeline (ET.Document root)) issues ∧
    of_kind MissingVisitDate issues =
      if bool_decide (Exists (λ n, visit_date n = "Unknown")
                        (ET.findall root "HIVEncounter"))
      then [msg_missing_visit_date] else [].
Proof.
  exists (all_issues (extracted root)). split.
  { intros st. unfold call. by rewrite pipeline_run. }
  rewrite of_kind_missing_visit_date. unfold items.
  set (d := encounters (extracted root)).
  assert (flat_map (λ de : string * encounter,
              if String.eqb de.1 "Unknown"
              then [msg_missing_visit_date] else []) d =
          map (λ _, msg_missing_visit_date)
            (filter (λ x, x = "Unknown") (keys d))) as ->.
  { clear. induction d as [|[k e] d IH]; [done|].
    simpl. rewrite filter_cons. simpl.
    destruct (String.eqb_spec k "Unknown") as [->|Hne].
    - rewrite decide_True by done. simpl. by rewrite IH.
    - rewrite decide_False by done. by rewrite IH. }
  rewrite filter_eq_NoDup by apply collect_NoDup, NoDup_nil_2.
  assert ("Unknown" ∈ keys d ↔
          Exists (λ n, visit_date n = "Unknown")
            (ET.findall root "HIVEncounter")) as Hiff.
  { unfold d. simpl. rewrite elem_of_keys_collect, Exists_exists.
    naive_solver. }
  destruct (decide ("Unknown" ∈ keys d)) as [Hin|Hnin].
  - rewrite !bool_decide_eq_true_2; [done | by apply Hiff | done].
  - rewrite !bool_decide_eq_false_2; [done | by rewrite <- Hiff | done].
Qed.

Section Grouping.

Lemma has_kind_kind_of k0 m : has_kind k0 m → kind_of m = Some k0.
Proof.
  intros H. unfold kind_of, kinds. simpl. rewrite !H. by destruct k0.
Qed.

Lemma has_kind_unique k0 m k : has_kind k0 m → is_kind k m = true ↔ k = k0.
Proof. intros H. rewrite H. apply bool_decide_eq_true. Qed.

Lemma of_rule_rule_no i m : of_rule i m → rule_no m = i.
Proof.
  intros (k & Hk & <-). unfold rule_no. by rewrite (has_kind_kind_of _ _ Hk).
Qed.

Lemma all_kind_of_rule k0 l : all_kind k0 l → Forall (of_rule (rule_of k0)) l.
Proof.
  intros H. apply Forall_forall. intros m Hm. exists k0. split; [|done].
  intros k. specialize (H k). rewrite Forall_forall in H. by apply H.
Qed.

Lemma encounter_issues_of_rule s : Forall (of_rule 1) (encounter_issues s).
Proof.
  unfold encounter_issues, items.
  induction (encounters s) as [|[date e] l IH]; [constructor|].
  simpl. rewrite <- app_assoc. repeat apply Forall_app_2; [| |exact IH].
  - destruct (negb _); repeat constructor.
    exists MissingArv. split; [|done]. intros k. apply kind_missing_arv.
  - destruct (String.eqb _ _); repeat constructor.
    exists MissingVisitDate. split; [|done].
    intros k. apply kind_missing_visit_date.
Qed.

Lemma age_issues_of_rule s : Forall (of_rule 7) (age_issues s).
Proof.
  unfold age_issues.
  assert (of_rule 7 msg_age_format) as Hf.
  { exists AgeFormat. split; [|done]. intros k. apply kind_age_format. }
  destruct (Lib.strptime (patient_get "dob" s)); [by repeat constructor|].
  destruct (Lib.strptime (patient_get "report_date" s));
    [by repeat constructor|].
  destruct (Lib.int (patient_get "age" s)); [by repeat constructor|].
  destruct (1 <? _); repeat constructor.
  exists AgeMismatch. split; [|done]. intros k. apply kind_age_mismatch.
Qed.

(** A segment of rule [i] before a sorted rest of rules from [j >= i]. *)
Lemma sorted_segment (i j : nat) (l1 l2 : list string) :
  (i ≤ j)%nat → Forall (of_rule i) l1 →
  StronglySorted le (map rule_no l2) ∧ Forall (λ m, (j ≤ rule_no m)%nat) l2 →
  StronglySorted le (map rule_no (l1 ++ l2)) ∧
  Forall (λ m, (i ≤ rule_no m)%nat) (l1 ++ l2).
Proof.
  intros Hij H1 [Hs Hf].
  assert (Forall (λ m, (i ≤ rule_no m)%nat) l2) as Hf'
    by (eapply Forall_impl; [exact Hf | simpl; lia]).
  induction H1 as [|m l1 Hm _ [IHs IHf]]; simpl; [done|].
  apply of_rule_rule_no in Hm. split.
  - constructor; [exact IHs|]. rewrite Hm. by apply Forall_map.
  - constructor; [lia | exact IHf].
Qed.

End Grouping.

(** X3 — the report is grouped by rule (lines 104-158).  Every issue of a
    report is of exactly one of the nine kinds, and the issues stand in the
    order of the rules that append them: those of rule 1 first, then those
    of rule 2, and so on to rule 7. *)
Theorem report_grouped_by_rule (s : services) :
  ∃ issues, returns (validate_ndr s) issues ∧
    Forall (λ m, ∃ k, kind_of m = Some k ∧
                      ∀ k', is_kind k' m = true ↔ k' = k) issues ∧
    StronglySorted le (map rule_no issues).
Proof.
  exists (all_issues s). split; [apply validate_ndr_returns|].
  pose proof (encounter_issues_of_rule s) as H1.
  pose proof (all_kind_of_rule _ _ (art_start_issues_kind s)) as H2.
  pose proof (all_kind_of_rule _ _ (tb_ipt_issues_kind s)) as H3.
  pose proof (all_kind_of_rule _ _ (lab_issues_kind s)) as H4.
  pose proof (all_kind_of_rule _ _ (mmd_issues_kind s)) as H5.
  pose proof (all_kind_of_rule _ _ (arv_match_issues_kind s)) as H6.
  pose proof (age_issues_of_rule s) as H7.
  simpl in H2, H3, H4, H5, H6. split.
  - assert (∀ i m, of_rule i m →
              ∃ k, kind_of m = Some k ∧ ∀ k', is_kind k' m = true ↔ k' = k)
      as Hone.
    { intros i m (k & Hk & _). exists k.
      split; [by apply has_kind_kind_of|].
      intros k'. by apply has_kind_unique. }
    unfold all_issues. repeat apply Forall_app_2;
      (eapply Forall_impl; [eassumption | apply Hone]).
  - unfold all_issues.
    apply (sorted_segment 1 2 _ _ ltac:(lia) H1).
    apply (sorted_segment 2 3 _ _ ltac:(lia) H2).
    apply (sorted_segment 3 4 _ _ ltac:(lia) H3).
    apply (sorted_segment 4 5 _ _ ltac:(lia) H4).
    apply (sorted_segment 5 6 _ _ ltac:(lia) H5).
    apply (sorted_segment 6 7 _ _ ltac:(lia) H6).
    rewrite <- (app_nil_r (age_issues s)).
    apply (sorted_segment 7 7 _ _ ltac:(lia) H7).
    split; constructor.
Qed.

Lemma dict_get_map {V W} (h : string → V → W) (k : string) (d : pydict V) :
  dict_get k (map (λ kv, (kv.1, h kv.1 kv.2)) d) = h k <$> dict_get k d.
Proof.
  induction d as [|[k0 v0] d IH]; [done|]. simpl.
  destruct (String.eqb_spec k0 k) as [->|Hne]; [done | exact IH].
Qed.

(** X5 — the DSD marker is never read (lines 82-84, 103-158).  Whatever the
    differentiated-service-delivery field of each regimen holds, the report
    is the same: replacing those fields in any way leaves what
    [validate_ndr] returns unchanged. *)
Theorem dsd_is_ignored (f : string → regimen → option string) (s : services) :
  ∃ issues, returns (validate_ndr s) issues ∧
            returns (validate_ndr (with_dsd f s)) issues.
Proof.
  exists (all_issues s). split; [apply validate_ndr_returns|].
  assert (all_issues (with_dsd f s) = all_issues s) as <-;
    [|apply validate_ndr_returns].
  unfold all_issues. f_equal. f_equal. f_equal. f_equal. f_equal; [|f_equal].
  - unfold mmd_issues, items. simpl.
    induction (regimens s) as [|[date r] l IH]; [done|]. simpl. by rewrite IH.
  - unfold arv_match_issues. apply flat_map_ext_eq. intros [date e].
    simpl.
    rewrite (dict_get_map
               (λ k r, {| code := code r; type := type r; mmd := mmd r;
                          dsd := f k r; duration := duration r |})).
    by destruct (dict_get date (regimens s)).
Qed.

Lemma length_flat_map_le {A B} (c : nat) (f : A → list B) (l : list A) :
  (∀ x, (length (f x) ≤ c)%nat) → (length (flat_map f l) ≤ c * length l)%nat.
Proof.
  intros H. induction l as [|x l IH]; simpl; [lia|].
  rewrite length_app. specialize (H x). lia.
Qed.

Lemma length_dict_set {V} (k : string) (v : V) (d : pydict V) :
  (length (dict_set k v d) ≤ S (length d))%nat.
Proof.
  induction d as [|[k0 v0] d IH]; simpl; [lia|].
  destruct (String.eqb k0 k); simpl; lia.
Qed.

Lemma length_collect {X V} (key : X → string) (val : X → V) (l : list X)
      (d : pydict V) :
  (length (collect key val l d) ≤ length d + length l)%nat.
Proof.
  revert d. induction l as [|x l IH]; intros d; simpl; [lia|].
  specialize (IH (dict_set (key x) (val x) d)).
  pose proof (length_dict_set (key x) (val x) d). lia.
Qed.

(** X6 — the size of a report (lines 77-99, 104-158).  The report of the
    pipeline holds at most five issues per [HIVEncounter] node, one per
    [Regimen] node, one per [LaboratoryReport] node, and one more. *)
Theorem report_length_bound (root : ET.Element) :
  ∃ issues, returns (pipeline (ET.Document root)) issues ∧
    (length issues ≤
       5 * length (ET.findall root "HIVEncounter") +
       length (ET.findall root "Regimen") +
       length (ET.findall root "LaboratoryReport") + 1)%nat.
Proof.
  exists (all_issues (extracted root)). split.
  { intros st. unfold call. by rewrite pipeline_run. }
  set (s := extracted root).
  assert (length (encounters s) ≤ length (ET.findall root "HIVEncounter"))%nat
    as He by apply (length_collect visit_date encounter_of _ []).
  assert (length (regimens s) ≤ length (ET.findall root "Regimen"))%nat
    as Hr by apply (length_collect visit_date regimen_of _ []).
  assert (length (labs s) ≤ length (ET.findall root "LaboratoryReport"))%nat
    as Hl by apply (length_collect visit_date lab_of _ []).
  assert (length (encounter_issues s) ≤ 2 * length (encounters s))%nat as H1.
  { apply length_flat_map_le. intros [date e]. rewrite length_app.
    destruct (negb _), (String.eqb _ _); simpl; lia. }
  assert (length (art_start_issues s) ≤ 1 * length (encounters s))%nat as H2.
  { unfold art_start_issues. destruct (art_start s) as [a|]; [|simpl; lia].
    rewrite <- (length_map fst (encounters s)).
    apply length_flat_map_le. intros date.
    destruct (Lib.strptime _) as [?|v]; [simpl; lia|].
    destruct (Py.dt_lt v a); simpl; lia. }
  assert (length (tb_ipt_issues s) ≤ length (encounters s))%nat as H3.
  { unfold tb_ipt_issues. destruct (_ && _); [|simpl; lia].
    rewrite flat_map_singleton, length_map. unfold tb_encounters.
    rewrite length_map. apply length_filter. }
  assert (length (lab_issues s) ≤ 1 * length (labs s))%nat as H4.
  { apply length_flat_map_le. intros [date l].
    destruct (_ || _); simpl; lia. }
  assert (length (mmd_issues s) ≤ 1 * length (regimens s))%nat as H5.
  { apply length_flat_map_le. intros [date r].
    destruct (int_or_0 _) as [?|n]; [simpl; lia|].
    destruct (_ && _); simpl; lia. }
  assert (length (arv_match_issues s) ≤ 1 * length (encounters s))%nat as H6.
  { apply length_flat_map_le. intros [date e].
    destruct (dict_get _ _) as [r|]; [|simpl; lia].
    destruct (bool_decide _); [|simpl; lia].
    destruct (_ && _); simpl; lia. }
  assert (length (age_issues s) ≤ 1)%nat as H7.
  { unfold age_issues. repeat case_match; simpl; lia. }
  unfold all_issues. rewrite !length_app. unfold items in *. lia.
Qed.

Lemma patient_get_no_demographics (root : ET.Element) :
  ET.find root "PatientDemographics" = None →
  patient_get "dob" (extracted root) = None.
Proof.
  intros H. unfold patient_get. simpl. unfold patient_of. rewrite H.
  destruct (ET.find root "CommonQuestions"); [|done].
  by rewrite !lookup_insert_ne.
Qed.

Lemma patient_get_no_common (root : ET.Element) :
  ET.find root "CommonQuestions" = None →
  patient_get "report_date" (extracted root) = None.
Proof.
  intros H. unfold patient_get. simpl. unfold patient_of. rewrite H.
  destruct (ET.find root "PatientDemographics"); [|done].
  by rewrite lookup_insert_ne.
Qed.

(** X7 — a document without its patient sections (lines 59-66, 146-156).
    When a document has no [PatientDemographics] node, or no
    [CommonQuestions] node, the report of the pipeline is never empty: it
    ends with the format warning, and holds no age-mismatch issue. *)
Theorem missing_patient_section_warns (root : ET.Element) :
  ET.find root "PatientDemographics" = None ∨
  ET.find root "CommonQuestions" = None →
  ∃ issues, returns (pipeline (ET.Document root)) issues ∧
            last issues = Some msg_age_format ∧
            of_kind AgeMismatch issues = [].
Proof.
  intros H. exists (all_issues (extracted root)). split.
  { intros st. unfold call. by rewrite pipeline_run. }
  assert (age_issues (extracted root) = [msg_age_format]) as Hage.
  { unfold age_issues. destruct H as [H|H].
    - by rewrite (patient_get_no_demographics _ H).
    - rewrite (patient_get_no_common _ H).
      by destruct (Lib.strptime (patient_get "dob" (extracted root))). }
  split.
  - unfold all_issues. rewrite Hage, !app_assoc. apply last_snoc.
  - rewrite of_kind_age by auto. by rewrite Hage.
Qed.

(** X8 — the computed age counts birthdays (line 152).  The age computed
    from a date of birth and a report date is [n] exactly when the [n]th
    birthday is on or before the report date and the next one is after it;
    so the age steps up on the birthday itself, and is negative when the
    report date precedes the date of birth. *)
Theorem calc_age_counts_birthdays (dob rpt : Py.datetime) (n : Z) :
  calc_age dob rpt = n ↔
  Py.dt_lt rpt (birthday n dob) = false ∧
  Py.dt_lt rpt (birthday (n + 1) dob) = true.
Proof.
  unfold calc_age, birthday, Py.dt_lt, Py.pair_lt. simpl.
  destruct ((Py.month rpt <? Py.month dob) ||
            (Py.month rpt =? Py.month dob) && (Py.day rpt <? Py.day dob))
    eqn:Hb; lia.
Qed.

(* ===================================================================== *)
(** ** Further properties of the extractor *)
(* ===================================================================== *)

(** X9 — IPT dates are regimen dates (lines 77-86).  In every extracted
    record each date of the IPT set is a key of the regimens: the set never
    holds a date under which no regimen is filed. *)
Theorem ipt_dates_are_regimen_dates (root : ET.Element) :
  ∃ s, returns (extract_services_with_dates (ET.Document root)) s ∧
       ∀ date, date ∈ ipt_codes s → date ∈ keys (regimens s).
Proof.
  exists (extracted root). split; [apply extract_returns|].
  intros date. simpl. rewrite elem_of_collect_ipt, elem_of_keys_collect.
  intros [H|(reg & Hin & _ & Hd)]; [by apply elem_of_empty in H|].
  by exists reg.
Qed.

Lemma filter_not_in_snoc (x : string) (seen l : list string) :
  filter (λ y, y ∉ seen ++ [x]) l =
  filter (λ y, y ∉ seen) (filter (λ y, y ≠ x) l).
Proof.
  induction l as [|y l IH]; [done|].
  rewrite !filter_cons. destruct (decide (y = x)) as [->|Hne].
  - rewrite decide_False, decide_False; [exact IH | naive_solver |].
    rewrite elem_of_app, list_elem_of_singleton. naive_solver.
  - rewrite (decide_True (P := y ≠ x)) by done. rewrite filter_cons.
    destruct (decide (y ∈ seen)) as [Hin|Hnin].
    + rewrite !decide_False; [exact IH | naive_solver |].
      rewrite elem_of_app. naive_solver.
    + rewrite !decide_True; [by rewrite IH | done |].
      rewrite elem_of_app, list_elem_of_singleton. naive_solver.
Qed.

Lemma filter_not_in_drop (x : string) (seen l : list string) :
  x ∈ seen →
  filter (λ y, y ∉ seen) (filter (λ y, y ≠ x) l) = filter (λ y, y ∉ seen) l.
Proof.
  intros Hx. induction l as [|y l IH]; [done|].
  rewrite !filter_cons. destruct (decide (y = x)) as [->|Hne].
  - rewrite decide_False by naive_solver.
    rewrite (decide_False (P := x ∉ seen)) by naive_solver. exact IH.
  - rewrite (decide_True (P := y ≠ x)) by done. rewrite filter_cons.
    by rewrite IH.
Qed.

Lemma keys_collect {X V} (key : X → string) (val : X → V) (l : list X)
      (d : pydict V) :
  keys (collect key val l d) =
  keys d ++ filter (λ y, y ∉ keys d) (first_occurrences (map key l)).
Proof.
  revert d. induction l as [|x l IH]; intros d; simpl.
  - by rewrite app_nil_r.
  - rewrite IH, keys_dict_set, filter_cons.
    destruct (decide (key x ∈ keys d)) as [Hin|Hnin].
    + rewrite (bool_decide_eq_true_2 _ Hin).
      rewrite decide_False by naive_solver.
      by rewrite filter_not_in_drop.
    + rewrite (bool_decide_eq_false_2 _ Hnin).
      rewrite decide_True by done.
      by rewrite filter_not_in_snoc, <- app_assoc.
Qed.

Lemma filter_not_in_nil (l : list string) : filter (λ y, y ∉ []) l = l.
Proof.
  induction l as [|y l IH]; [done|].
  rewrite filter_cons, decide_True by apply not_elem_of_nil. by rewrite IH.
Qed.

(** X10 — the order of the keys (lines 77-99).  The keys of each extracted
    collection stand in the order in which their visit dates first occur in
    the document: a date written again later keeps the place of its first
    node (while, by last-write-wins, taking the entry of its last). *)
Theorem keys_in_first_occurrence_order (root : ET.Element) :
  ∃ s, returns (extract_services_with_dates (ET.Document root)) s ∧
    keys (encounters s) =
      first_occurrences (map visit_date (ET.findall root "HIVEncounter")) ∧
    keys (regimens s) =
      first_occurrences (map visit_date (ET.findall root "Regimen")) ∧
    keys (labs s) =
      first_occurrences (map visit_date (ET.findall root "LaboratoryReport")).
Proof.
  exists (extracted root). split; [apply extract_returns|].
  simpl. rewrite !keys_collect. simpl. by rewrite !filter_not_in_nil.
Qed.


Lemma Element_ind_all (P : ET.Element → Prop) :
  (∀ t x cs, Forall P cs → P (ET.Elem t x cs)) → ∀ e, P e.
Proof.
  intros H. fix IH 1. intros [t x cs]. apply H.
  induction cs as [|c cs IHcs]; constructor; [apply IH | exact IHcs].
Qed.

Lemma iter_unfold (e : ET.Element) :
  ET.iter e = e :: flat_map ET.iter (ET.children e).
Proof.
  by destruct e as [t x cs].
Qed.

Lemma tree_size_unfold (e : ET.Element) :
  tree_size e = S (list_sum (map tree_size (ET.children e))).
Proof.
  destruct e as [t x cs]. simpl. f_equal.
  induction cs as [|c cs IH]; [done|]. simpl. by rewrite IH.
Qed.

Lemma elem_of_flat_map_iter (e : ET.Element) (cs : list ET.Element) :
  e ∈ flat_map ET.iter cs ↔ ∃ c, c ∈ cs ∧ e ∈ ET.iter c.
Proof.
  rewrite list_elem_of_In, in_flat_map.
  split; intros (c & Hc & He); exists c; by rewrite ?list_elem_of_In in *.
Qed.

Lemma elem_of_iter (root e : ET.Element) :
  e ∈ ET.iter root ↔ e = root ∨ below root e.
Proof.
  revert e. induction root as [t x cs IH] using Element_ind_all. intros e.
  rewrite iter_unfold, elem_of_cons, elem_of_flat_map_iter. simpl.
  rewrite Forall_forall in IH. split.
  - intros [->|(c & Hc & He)]; [by left|]. right.
    apply (IH c Hc) in He as [->|He].
    + by apply below_child.
    + by apply (below_deeper _ c).
  - intros [->|Hb]; [by left|]. right.
    destruct Hb as [c Hc|c e Hc He]; exists c; (split; [done|]);
      apply (IH c Hc); auto.
Qed.

Lemma elem_of_findall (root e : ET.Element) (t : string) :
  e ∈ ET.findall root t ↔ below root e ∧ ET.tag e = t.
Proof.
  unfold ET.findall. rewrite list_elem_of_filter, iter_unfold. simpl.
  rewrite elem_of_flat_map_iter. split.
  - intros [Ht (c & Hc & He)]. split; [|done].
    apply elem_of_iter in He as [->|He];
      [by apply below_child | by apply (below_deeper _ c)].
  - intros [Hb Ht]. split; [done|].
    destruct Hb as [c Hc|c e Hc He]; exists c; (split; [done|]);
      apply elem_of_iter; auto.
Qed.

Lemma below_smaller (root e : ET.Element) :
  below root e → (tree_size e < tree_size root)%nat.
Proof.
  assert (∀ c r, c ∈ ET.children r → (tree_size c < tree_size r)%nat) as Hc.
  { intros c r Hin. rewrite (tree_size_unfold r).
    induction (ET.children r) as [|c' cs IH]; [by apply elem_of_nil in Hin|].
    apply elem_of_cons in Hin as [->|Hin]; simpl; [lia|].
    specialize (IH Hin). lia. }
  induction 1 as [r c Hin|r c e Hin _ IH].
  - by apply Hc.
  - specialize (Hc c r Hin). lia.
Qed.

(** X12 — records are found at any depth, the root never (lines 77, 88,
    94).  The keys of each extracted collection are exactly the visit dates
    of the nodes of its tag that lie below the root, however deep; the root
    element is not below itself, so a root that carries one of the three
    tags is not filed. *)
Theorem nodes_found_at_any_depth (root : ET.Element) :
  ¬ below root root ∧
  ∃ s, returns (extract_services_with_dates (ET.Document root)) s ∧
    (∀ k, k ∈ keys (encounters s) ↔
          ∃ n, below root n ∧ ET.tag n = "HIVEncounter" ∧ visit_date n = k) ∧
    (∀ k, k ∈ keys (regimens s) ↔
          ∃ n, below root n ∧ ET.tag n = "Regimen" ∧ visit_date n = k) ∧
    (∀ k, k ∈ keys (labs s) ↔
          ∃ n, below root n ∧ ET.tag n = "LaboratoryReport" ∧
               visit_date n = k).
Proof.
  split.
  - intros H. apply below_smaller in H. lia.
  - exists (extracted root). split; [apply extract_returns|].
    simpl. split_and!; intros k; rewrite elem_of_keys_collect;
      setoid_rewrite elem_of_findall; naive_solver.
Qed.

(* ===================================================================== *)
(** ** The view *)
(* ===================================================================== *)

Lemma endswith_spec (s suffix : string) :
  PyStr.endswith s suffix = true ↔ ∃ p, s = p +:+ suffix.
Proof.
  induction s as [|c s IH]; cbn [PyStr.endswith].
  - rewrite orb_false_r, String.eqb_eq. split.
    + intros <-. by exists "".
    + intros ([|c p] & H); [done | discriminate].
  - rewrite orb_true_iff, String.eqb_eq, IH. split.
    + intros [<-|(p & ->)]; [by exists "" | by exists (String c p)].
    + intros ([|c' p] & H); [by left|]. right. exists p.
      simpl in H. by inversion H.
Qed.

Lemma lower_app (a b : string) :
  PyStr.lower (a +:+ b) = PyStr.lower a +:+ PyStr.lower b.
Proof. induction a as [|c a IH]; simpl; [done | by rewrite IH]. Qed.

Lemma lower_split (s a b : string) :
  PyStr.lower s = a +:+ b →
  ∃ s1 s2, s = s1 +:+ s2 ∧ PyStr.lower s1 = a ∧ PyStr.lower s2 = b.
Proof.
  revert s. induction a as [|c a IH]; intros s H.
  - by exists "", s.
  - destruct s as [|c' s]; [discriminate|]. simpl in H.
    inversion H as [[Hc Hs]]. destruct (IH s Hs) as (s1 & s2 & -> & <- & <-).
    by exists (String c' s1), s2.
Qed.

(** The extension test of line 169 passes on the names that end with
    ".xml" in some letter case. *)
Lemma xml_extension (name : string) :
  PyStr.endswith (PyStr.lower name) ".xml" = true ↔
  ∃ stem ext, name = stem +:+ ext ∧ PyStr.lower ext = ".xml".
Proof.
  rewrite endswith_spec. split.
  - intros (p & H). apply lower_split in H as (s1 & s2 & -> & _ & H).
    by exists s1, s2.
  - intros (stem & ext & -> & H). exists (PyStr.lower stem).
    by rewrite lower_app, H.
Qed.

Lemma try_pipeline_run (exn_text : Py.exn → string) (f : ET.xml_file)
      (st : store) :
  ∃ st', try_pipeline exn_text f st = (inr (answer exn_text f), st').
Proof.
  unfold try_pipeline, answer.
  destruct f as [| | | |root]; simpl; try by eexists.
  rewrite pipeline_run. by eexists.
Qed.

(** A POST with a named file that passes the extension test: the view
    raises what [file.save] or [os.remove] raises, and otherwise returns
    the page its [try] settled on. *)
Lemma upload_file_accepted (exn_text : Py.exn → string) (d : disk)
      (m : string) (f : FileStorage) (st : store) :
  m = "POST" → filename f ≠ "" →
  PyStr.endswith (PyStr.lower (filename f)) ".xml" = true →
  call (upload_file exn_text d (mk_request m (Some f))) st =
  match save d with
  | inl e => inl e
  | inr _ =>
      match (if exists_ d then remove d else inr ()) with
      | inl e => inl e
      | inr _ => inr (answer exn_text (stream f))
      end
  end.
Proof.
  intros -> Hn Hx. unfold call, upload_file. simpl.
  destruct (filename f) as [|c t] eqn:Hf; [done|]. simpl.
  rewrite Hf, Hx. simpl. rewrite bind_run. unfold eval.
  destruct (save d) as [e|[]]; [done|].
  rewrite bind_run.
  destruct (try_pipeline_run exn_text (stream f) st) as [st' ->].
  rewrite bind_run. unfold when.
  destruct (exists_ d); [|done].
  unfold eval. by destruct (remove d) as [e|[]].
Qed.

Lemma upload_file_rejected (exn_text : Py.exn → string) (d : disk)
      (f : FileStorage) (st : store) :
  filename f ≠ "" →
  PyStr.endswith (PyStr.lower (filename f)) ".xml" = false →
  call (upload_file exn_text d (mk_request "POST" (Some f))) st =
  inr (mk_page None (Some msg_invalid_type)).
Proof.
  intros Hn Hx. unfold call, upload_file. simpl.
  destruct (filename f) as [|c t] eqn:Hf; [done|]. simpl.
  by rewrite Hf, Hx.
Qed.

Lemma upload_file_unnamed (exn_text : Py.exn → string) (d : disk)
      (file : option FileStorage) (st : store) :
  (∀ f, file = Some f → filename f = "") →
  call (upload_file exn_text d (mk_request "POST" file)) st =
  inr (mk_page None (Some msg_no_file)).
Proof.
  intros Hf. unfold call, upload_file. simpl.
  destruct file as [f|]; [|done]. simpl. by rewrite (Hf f eq_refl).
Qed.

Lemma upload_file_other_method (exn_text : Py.exn → string) (d : disk)
      (req : request) (st : store) :
  method req ≠ "POST" →
  call (upload_file exn_text d req) st = inr (mk_page None None).
Proof.
  intros Hm. unfold call, upload_file.
  apply String.eqb_neq in Hm. by rewrite Hm.
Qed.

(** The page of an accepted upload. *)
Lemma answer_page (exn_text : Py.exn → string) (f : ET.xml_file) :
  (page_issues (answer exn_text f) = None ∨
   error_message (answer exn_text f) = None) ∧
  (page_issues (answer exn_text f) ≠ None ∨
   error_message (answer exn_text f) ≠ None) ∧
  (∀ issues, page_issues (answer exn_text f) = Some issues ↔
     ∃ root, f = ET.Document root ∧
             returns (pipeline (ET.Document root)) issues) ∧
  (∀ text, error_message (answer exn_text f) = Some (msg_unexpected text) ↔
     ∃ e, ET.parse f = inl e ∧ e ≠ Py.ParseError ∧ text = exn_text e).
Proof.
  assert (∀ root, returns (pipeline (ET.Document root))
                    (all_issues (extracted root))) as Hpipe.
  { intros root st. unfold call. by rewrite pipeline_run. }
  unfold answer. destruct f as [| | | |root]; simpl; split_and!;
    try (by left); try (by right);
    try (intros issues; split; [done|]; by intros (root & [=] & _));
    try (intros text; split;
         [ intros [= H]; cbv in H; subst text;
           eexists; split; [reflexivity | done]
         | by intros (e & [= <-] & _ & ->) ]).
  - intros text. split; [intros [=]|].
    intros (e & [= <-] & He & _). done.
  - intros issues. split.
    + intros [= <-]. exists root. split; [done | apply Hpipe].
    + intros (root' & [= <-] & Hr). f_equal.
      apply (returns_inj _ _ _ (Hpipe root) Hr).
  - intros text. split; [done|]. by intros (e & [=] & _).
Qed.


(** X14 — the extension test (lines 166-170).  A POST that carries a named
    file is answered with "Invalid file type", and with neither a report
    nor a parse failure, exactly when its name does not end with ".xml"
    written in some mix of upper and lower case. *)
Theorem extension_gate (exn_text : Py.exn → string) (d : disk)
        (f : FileStorage) :
  filename f ≠ "" →
  (returns (upload_file exn_text d (mk_request "POST" (Some f)))
     (mk_page None (Some msg_invalid_type)) ↔
   ¬ ∃ stem ext, filename f = stem +:+ ext ∧ PyStr.lower ext = ".xml").
Proof.
  intros Hne. rewrite <- xml_extension.
  destruct (PyStr.endswith (PyStr.lower (filename f)) ".xml") eqn:Hx.
  - split; [|done]. intros Hret. exfalso.
    specialize (Hret (mk_store empty_services [])).
    rewrite upload_file_accepted in Hret by done.
    destruct (save d) as [e|[]]; [done|].
    destruct (if exists_ d then remove d else inr ()) as [e|[]]; [done|].
    unfold answer in Hret. by destruct (stream f).
  - split; [done|]. intros _ st. by apply upload_file_rejected.
Qed.

End Program.

(* ===================================================================== *)
(** ** The worked documents, run *)
(* ===================================================================== *)

(** The text of the worked documents is plain ASCII, on which every library
    agrees with [ascii_library]; they are run with it. *)
#[local] Existing Instance ascii_library.

Ltac run_pipeline := intros st; vm_compute; reflexivity.

Example scenario_a_issues : returns (pipeline scenario_a) [msg_age_format].
Proof. run_pipeline. Qed.

Example scenario_b_issues :
  returns (pipeline scenario_b)
    ["❌ Encounter on 2024-01-15 before ARTStartDate 2024-02-01.";
     msg_age_format].
Proof. run_pipeline. Qed.

Example scenario_c_issues :
  returns (pipeline scenario_c)
    ["❌ TB positive on 2024-03-01, but no IPT regimen found."; msg_age_format].
Proof. run_pipeline. Qed.

Example scenario_d_23 : returns (pipeline (scenario_d "23")) [].
Proof. run_pipeline. Qed.

Example scenario_d_25 :
  returns (pipeline (scenario_d "25"))
    ["❌ Reported age 25 does not match calculated age 23."].
Proof. run_pipeline. Qed.

Example overwritten_issues :
  returns (pipeline (ET.Document overwritten))
    ["❌ Missing ARV regimen in encounter on 2024-01-15.";
     "❌ Missing VisitDate in an encounter.";
     "❌ Lab report on 2024-01-15 missing test ID or collection date.";
     "❌ Regimen on 2024-01-15 has duration >30 but no MMD.";
     msg_age_format].
Proof. run_pipeline. Qed.

Example not_well_formed : raises (pipeline ET.NotWellFormed) Py.ParseError.
Proof. by intros st. Qed.

Example unknown_encoding : raises (pipeline ET.UnknownEncoding) Py.LookupError.
Proof. by intros st. Qed.





(** The empty ARV code and the empty collection date of [overwritten] are
    reported. *)
Lemma empty_counts_as_missing_witness :
  ∃ issues, returns (validate_ndr (extracted overwritten)) issues ∧
            msg_missing_arv "2024-01-15" ∈ issues ∧
            msg_lab "2024-01-15" ∈ issues.
Proof.
  destruct (empty_counts_as_missing (extracted overwritten))
    as (issues & Hret & _ & _ & Harv & Hlab).
  exists issues. split; [exact Hret|]. split.
  - apply (Harv "2024-01-15" (mk_encounter (Some "") (Some "1")));
      [|reflexivity].
    apply elem_of_cons. left. reflexivity.
  - apply (Hlab "2024-01-15" (mk_lab (Some "1") (Some ""))).
    + apply elem_of_cons. left. reflexivity.
    + right. reflexivity.
Defined.

(** The two encounters of [overwritten] are filed under the visit date and
    under the sentinel. *)
Lemma last_write_wins_witness :
  ∃ s, returns (extract_services_with_dates (ET.Document overwritten)) s ∧
       "2024-01-15" ∈ keys (encounters s) ∧ "Unknown" ∈ keys (encounters s).
Proof.
  destruct (last_write_wins overwritten) as (s & Hret & _ & _ & Henc & _).
  exists s. split; [exact Hret|]. split.
  - apply (Henc "2024-01-15").
    exists (hiv_encounter
              [leaf "VisitDate" "2024-01-15";
               ET.Elem "ARVDrugRegimen" None [ET.Elem "Code" None []];
               leaf "TBStatus" "1"]).
    split; [|reflexivity]. apply elem_of_cons. left. reflexivity.
  - apply (Henc "Unknown").
    exists (hiv_encounter [arv_code "ABC+3TC"]).
    split; [|reflexivity].
    apply elem_of_cons. right. apply elem_of_cons. left. reflexivity.
Defined.



(** The date of [overwritten] is in the IPT set by its first regimen. *)
Lemma ipt_survives_overwrite_witness :
  "2024-01-15" ∈ ipt_codes (extracted overwritten) ∧
  code <$> dict_get "2024-01-15" (regimens (extracted overwritten))
    = Some "TDF+3TC+DTG".
Proof.
  split; [|reflexivity].
  destruct ipt_survives_overwrite as (_ & Hall).
  apply (Hall overwritten (extracted overwritten) (extract_returns overwritten)).
  exists (regimen_node "2024-01-15" "inh-300"
            [leaf "PrescribedRegimenDuration" "60"]).
  split; [|split; reflexivity].
  apply elem_of_cons. left. reflexivity.
Defined.

(** A document with one encounter and nothing else. *)
Lemma missing_patient_section_warns_witness :
  ∃ issues, returns (pipeline scenario_a) issues ∧
            last issues = Some msg_age_format ∧
            of_kind AgeMismatch issues = [].
Proof.
  apply (missing_patient_section_warns
           (ET.Elem "Container" None
              [ET.Elem "IndividualReport" None
                 [hiv_encounter [leaf "VisitDate" "2024-01-10";
                                 arv_code "TDF+3TC+DTG";
                                 leaf "TBStatus" "0"]]])).
  left. reflexivity.
Defined.

(** The IPT date of [overwritten] is a key of its regimens. *)
Lemma ipt_dates_are_regimen_dates_witness :
  ∃ s, returns (extract_services_with_dates (ET.Document overwritten)) s ∧
       "2024-01-15" ∈ keys (regimens s).
Proof.
  destruct (ipt_dates_are_regimen_dates overwritten) as (s & Hret & H).
  exists s. split; [exact Hret|]. apply H.
  rewrite (returns_inj _ _ _ Hret (extract_returns overwritten)).
  vm_compute. reflexivity.
Defined.


(** An encounter two levels down is filed. *)
Lemma nodes_found_at_any_depth_witness :
  ∃ s, returns (extract_services_with_dates (ET.Document overwritten)) s ∧
       "2024-01-15" ∈ keys (encounters s).
Proof.
  destruct (nodes_found_at_any_depth overwritten) as (_ & s & Hret & H & _).
  exists s. split; [exact Hret|]. apply H.
  exists (hiv_encounter
            [leaf "VisitDate" "2024-01-15";
             ET.Elem "ARVDrugRegimen" None [ET.Elem "Code" None []];
             leaf "TBStatus" "1"]).
  split; [|split; reflexivity].
  eapply below_deeper; [|apply below_child].
  - apply elem_of_cons. right. apply elem_of_cons. right.
    apply elem_of_cons. left. reflexivity.
  - apply elem_of_cons. left. reflexivity.
Defined.


(** A spreadsheet is turned away. *)
Lemma extension_gate_witness :
  returns (upload_file (λ _, "") (mk_disk (inr ()) true (inr ()))
             (mk_request "POST"
                (Some (mk_file "report.xml.xlsx" scenario_a))))
    (mk_page None (Some msg_invalid_type)).
Proof.
  apply (extension_gate (λ _, "") (mk_disk (inr ()) true (inr ()))
           (mk_file "report.xml.xlsx" scenario_a));
    [done|].
  intros (stem & ext & Hname & Hext).
  assert (PyStr.endswith (PyStr.lower "report.xml.xlsx") ".xml" = true) as H
    by (apply xml_extension; by exists stem, ext).
  discriminate H.
Defined.
